(** * train/torch/iteration.py: the training loop, its checkpoints and
      its k-fold cross-validation

    A shallow embedding of [train_single_fold], [save_checkpoints],
    [train_model] and [cross_validate].  Python floats are IEEE binary64
    numbers, here the primitive [float]; Python ints are [Z]; dicts with
    string keys are [gmap string _]; the history dicts, which the code
    mutates in place and shares between calls, live in a heap addressed by
    object identity.  torch, numpy and scikit-learn are collaborators: their
    operations are the fields of the classes [Torch] and [NumpyRandom]. *)

From Stdlib Require Import Floats ZArith Lia Ascii String.
From stdpp Require Import gmap strings list.

Local Open Scope Z_scope.
#[local] Set Warnings "-inexact-float".

(** ** Exceptions and results *)

Inductive exn : Type :=
| TypeError (msg : string)
| KeyError (key : string)
| IndexError
| ZeroDivisionError
| ValueError (msg : string).

Inductive result (A : Type) : Type :=
| Ok (a : A)
| Raise (e : exn).
Arguments Ok {A} a.
Arguments Raise {A} e.

Definition is_ok {A} (r : result A) : bool :=
  match r with Ok _ => true | Raise _ => false end.

(** ** Numbers *)

(** [float(n)] for a Python int; sizes and counts stay far below 2^63. *)
Definition float_of_Z (z : Z) : float :=
  if z <? 0 then PrimFloat.opp (PrimFloat.of_uint63 (Uint63.of_Z (- z)))
  else PrimFloat.of_uint63 (Uint63.of_Z z).

Definition float_of_nat (n : nat) : float := float_of_Z (Z.of_nat n).

(** [float("inf")], the default of [best_val_loss] and [best_loss]. *)
Definition float_inf : float := PrimFloat.infinity.

(** [range(a, b)] *)
Definition py_range (a b : Z) : list Z :=
  (fun i => a + Z.of_nat i) <$> seq 0 (Z.to_nat (b - a)).

(** [l[-1]] *)
Definition py_last {A} (l : list A) : result A :=
  match last l with Some x => Ok x | None => Raise IndexError end.

(** [l[i]] for [i >= 0] *)
Definition py_index {A} (l : list A) (i : nat) : result A :=
  match l !! i with Some x => Ok x | None => Raise IndexError end.

(** ** numpy: mean and standard deviation

    [np.mean(a)] is [add.reduce(a) / n]; [np.std(a)] with its default
    [ddof = 0] is [sqrt(add.reduce((a - mean)**2) / n)], the standard
    deviation of the population.  [add.reduce] over a float64 array starts
    from the identity [0.0] and adds the pairwise sum of the array to it:
    fewer than eight elements are added from left to right; up to 128
    elements go into eight running sums, element [i] into sum [i mod 8],
    which are then added as a tree, and the elements left over after the
    last full group of eight are added one by one; a longer array is split
    in two near the middle, at a multiple of eight, and the sums of the two
    parts are added. *)

(** The eight running sums [r[0] .. r[7]]. *)
Record unroll8 : Type := mkUnroll8 {
  r0 : float; r1 : float; r2 : float; r3 : float;
  r4 : float; r5 : float; r6 : float; r7 : float
}.

(** The loop over the full groups of eight, the tree and the loop over
    the rest. *)
Fixpoint pairwise_block (r : unroll8) (a : list float) : float :=
  match a with
  | a0 :: a1 :: a2 :: a3 :: a4 :: a5 :: a6 :: a7 :: rest =>
      pairwise_block
        (mkUnroll8
           (PrimFloat.add (r0 r) a0) (PrimFloat.add (r1 r) a1)
           (PrimFloat.add (r2 r) a2) (PrimFloat.add (r3 r) a3)
           (PrimFloat.add (r4 r) a4) (PrimFloat.add (r5 r) a5)
           (PrimFloat.add (r6 r) a6) (PrimFloat.add (r7 r) a7))
        rest
  | _ =>
      foldl PrimFloat.add
        (PrimFloat.add
           (PrimFloat.add (PrimFloat.add (r0 r) (r1 r))
                          (PrimFloat.add (r2 r) (r3 r)))
           (PrimFloat.add (PrimFloat.add (r4 r) (r5 r))
                          (PrimFloat.add (r6 r) (r7 r))))
        a
  end.

(** [pairwise_sum(a, n)]; [fuel] bounds the depth of the splitting, and
    the length of the array is always enough. *)
Fixpoint pairwise_sum (fuel : nat) (a : list float) : float :=
  let n := length a in
  if (n <? 8)%nat then foldl PrimFloat.add 0%float a
  else if (n <=? 128)%nat then
    match a with
    | a0 :: a1 :: a2 :: a3 :: a4 :: a5 :: a6 :: a7 :: rest =>
        pairwise_block (mkUnroll8 a0 a1 a2 a3 a4 a5 a6 a7) rest
    | _ => 0%float
    end
  else
    match fuel with
    | O => 0%float
    | S fuel' =>
        let n2 := (n / 2)%nat in
        let n2 := (n2 - n2 mod 8)%nat in
        PrimFloat.add (pairwise_sum fuel' (take n2 a))
                      (pairwise_sum fuel' (drop n2 a))
    end.

(** [np.add.reduce(a)] *)
Definition np_sum (a : list float) : float :=
  PrimFloat.add 0%float (pairwise_sum (length a) a).

Definition np_mean (a : list float) : float :=
  PrimFloat.div (np_sum a) (float_of_nat (length a)).

Definition np_std (a : list float) : float :=
  let arrmean := np_mean a in
  let x := (fun v => PrimFloat.sub v arrmean) <$> a in
  let x := (fun v => PrimFloat.mul v v) <$> x in
  PrimFloat.sqrt (PrimFloat.div (np_sum x) (float_of_nat (length a))).

(** ** os.path.join for two components (posixpath) *)

Definition ends_with_slash (s : string) : bool :=
  match last (String.list_ascii_of_string s) with
  | Some c => Ascii.eqb c "/"%char
  | None => false
  end.

Definition starts_with_slash (s : string) : bool :=
  match s with
  | String c _ => Ascii.eqb c "/"%char
  | EmptyString => false
  end.

Definition path_join (a b : string) : string :=
  if starts_with_slash b then b
  else if (String.eqb a "" || ends_with_slash a)%bool then String.append a b
  else String.append a (String.append "/" b).

(** ** Collaborators *)

(** A [torch.utils.data.DataLoader]: the dataset, the batch size and the
    index list its sampler draws from. *)
Record DataLoader (D : Type) : Type := mkDataLoader {
  dl_dataset : D;
  dl_batch_size : Z;
  dl_sampler : list nat
}.
Arguments mkDataLoader {D} _ _ _.
Arguments dl_dataset {D} _.
Arguments dl_batch_size {D} _.
Arguments dl_sampler {D} _.

(** torch: the model ([torch.nn.Module], its parameters with their [.grad]
    and its train/eval flag), the optimizer and the data.  [loss_func],
    [device] and [logger] are fixed by the instance; the lines the logger
    receives are not part of the state observed here. *)
Class Torch : Type := {
  Model : Type;
  Optim : Type;
  StateDict : Type;
  Batch : Type;
  Dataset : Type;
  (** [type(training_model).__name__] *)
  class_name : Model -> string;
  (** [training_model.train()], [training_model.eval()] *)
  model_train : Model -> Model;
  model_eval : Model -> Model;
  model_state_dict : Model -> StateDict;
  optim_state_dict : Optim -> StateDict;
  (** [optimizer.zero_grad()], [optimizer.step()] *)
  zero_grad : Optim -> Model -> Optim * Model;
  step : Optim -> Model -> Optim * Model;
  (** [loss_func(training_model( *batch[0:-1]), batch[-1]).item()] under
      [torch.set_grad_enabled(flag)] *)
  forward_loss : bool -> Model -> Batch -> Model * float;
  (** [current_loss.backward()] *)
  backward : Model -> Batch -> Model;
  (** [batch[0].size(0)] *)
  batch_size0 : Batch -> nat;
  (** [len(dataset)] *)
  dataset_len : Dataset -> nat;
  (** the batches one pass over a loader yields; [len(loader)] is their
      number *)
  loader_batches : DataLoader Dataset -> list Batch
}.

(** numpy's [RandomState]: seeding and [shuffle]. *)
Class NumpyRandom : Type := {
  Rng : Type;
  rng_seed : Z -> Rng;
  rng_shuffle : Rng -> list nat -> list nat * Rng
}.

(** ** Values passed in calls, and Python's argument binding

    The model, the optimizer and the logger are single objects, so a
    reference to one of them carries no data; a history dict is named by
    its address in the heap. *)

Inductive pyval : Type :=
| VModel
| VOptim
| VLogger
| VStr (s : string)
| VInt (z : Z)
| VFloat (f : float)
| VDict (l : positive).

(** A formal parameter: its name and its default, if any. *)
Record param : Type := mkParam {
  p_name : string;
  p_default : option pyval
}.

Definition bound (name : string) (env : list (string * pyval)) : bool :=
  bool_decide (name ∈ env.*1).

Definition has_param (name : string) (ps : list param) : bool :=
  bool_decide (name ∈ p_name <$> ps).

(** Positional arguments fill the parameters from the left. *)
Fixpoint bind_positional (fname : string) (ps : list param) (args : list pyval)
  : result (list (string * pyval)) :=
  match args, ps with
  | [], _ => Ok []
  | a :: args', p :: ps' =>
      match bind_positional fname ps' args' with
      | Ok env => Ok ((p_name p, a) :: env)
      | Raise e => Raise e
      end
  | _ :: _, [] =>
      Raise (TypeError (String.append fname "() takes fewer positional arguments"))
  end.

(** Keyword arguments, in the order written: an unknown name and a name
    that already has a value are both a [TypeError]. *)
Fixpoint bind_keywords (fname : string) (ps : list param)
  (kwargs : list (string * pyval)) (env : list (string * pyval))
  : result (list (string * pyval)) :=
  match kwargs with
  | [] => Ok env
  | (k, v) :: kwargs' =>
      if negb (has_param k ps) then
        Raise (TypeError (String.append fname
                 (String.append "() got an unexpected keyword argument '"
                    (String.append k "'"))))
      else if bound k env then
        Raise (TypeError (String.append fname
                 (String.append "() got multiple values for argument '"
                    (String.append k "'"))))
      else bind_keywords fname ps kwargs' (env ++ [(k, v)])
  end.

(** Parameters still without a value take their default; one without a
    default is a [TypeError]. *)
Fixpoint bind_defaults (fname : string) (ps : list param)
  (env : list (string * pyval)) : result (list (string * pyval)) :=
  match ps with
  | [] => Ok env
  | p :: ps' =>
      if bound (p_name p) env then bind_defaults fname ps' env
      else match p_default p with
           | Some d => bind_defaults fname ps' (env ++ [(p_name p, d)])
           | None =>
               Raise (TypeError (String.append fname
                        (String.append "() missing required argument '"
                           (String.append (p_name p) "'"))))
           end
  end.

Definition bind_args (fname : string) (ps : list param)
  (args : list pyval) (kwargs : list (string * pyval))
  : result (list (string * pyval)) :=
  match bind_positional fname ps args with
  | Raise e => Raise e
  | Ok env =>
      match bind_keywords fname ps kwargs env with
      | Raise e => Raise e
      | Ok env' => bind_defaults fname ps env'
      end
  end.

Fixpoint arg (name : string) (env : list (string * pyval)) : option pyval :=
  match env with
  | [] => None
  | (k, v) :: env' => if String.eqb k name then Some v else arg name env'
  end.

(** ** Checkpoints *)

(** A value stored in a checkpoint record. *)
Inductive saved (SD : Type) : Type :=
| SInt (z : Z)
| SFloat (f : float)
| SState (sd : SD)
| SHistory (h : gmap string (list float)).
Arguments SInt {SD} z.
Arguments SFloat {SD} f.
Arguments SState {SD} sd.
Arguments SHistory {SD} h.

Section Program.
Context `{T : Torch} `{NR : NumpyRandom}.

(** The dict handed to [torch.save], as the key/value pairs of the dict
    display in the order written. *)
Definition Checkpoint : Type := list (string * saved StateDict).

(** ** The state the program runs in *)

Record World : Type := mkWorld {
  (** the model and the optimizer, both mutated in place *)
  w_model : Model;
  w_optim : Optim;
  (** the history dicts, by object identity *)
  w_heap : gmap positive (gmap string (list float));
  (** the [torch.save] calls so far, latest first: path and record *)
  w_saved : list (string * Checkpoint);
  (** numpy's global random generator *)
  w_np_rng : Rng
}.

Definition set_model (m : Model) (w : World) : World :=
  mkWorld m (w_optim w) (w_heap w) (w_saved w) (w_np_rng w).
Definition set_optim (o : Optim) (w : World) : World :=
  mkWorld (w_model w) o (w_heap w) (w_saved w) (w_np_rng w).
Definition set_heap (h : gmap positive (gmap string (list float))) (w : World) : World :=
  mkWorld (w_model w) (w_optim w) h (w_saved w) (w_np_rng w).
Definition set_saved (s : list (string * Checkpoint)) (w : World) : World :=
  mkWorld (w_model w) (w_optim w) (w_heap w) s (w_np_rng w).
Definition set_np_rng (g : Rng) (w : World) : World :=
  mkWorld (w_model w) (w_optim w) (w_heap w) (w_saved w) g.

(** A computation: it may raise, and what it did to the state before
    raising stays done. *)
Definition M (A : Type) : Type := World -> result A * World.

Definition ret {A} (a : A) : M A := fun w => (Ok a, w).

Definition raise {A} (e : exn) : M A := fun w => (Raise e, w).

Definition bind {A B} (c : M A) (k : A -> M B) : M B :=
  fun w =>
    match c w with
    | (Ok a, w') => k a w'
    | (Raise e, w') => (Raise e, w')
    end.

Definition lift {A} (r : result A) : M A := fun w => (r, w).

Definition get : M World := fun w => (Ok w, w).

Definition modify (f : World -> World) : M unit := fun w => (Ok tt, f w).

(** [try: c  except Exception: pass], for a caller that goes on after a
    failed call. *)
Definition try_ {A} (c : M A) : M (result A) :=
  fun w => let '(r, w') := c w in (Ok r, w').

Notation "'let!' x ':=' c 'in' k" := (bind c (fun x => k))
  (at level 10, x pattern, c at level 100, k at level 200).
Notation "c ';;' k" := (bind c (fun _ => k))
  (at level 100, k at level 200, right associativity).

(** [for x in l: s = body(x, s)], with the loop's local variables in [s]. *)
Fixpoint for_each {A S} (l : list A) (body : A -> S -> M S) (s : S) : M S :=
  match l with
  | [] => ret s
  | x :: l' => let! s' := body x s in for_each l' body s'
  end.

(** ** History dicts *)

(** [d[key]] for the dict at address [l]; a missing key is a [KeyError]. *)
Definition dict_get (l : positive) (key : string) : M (list float) :=
  fun w =>
    match w_heap w !! l with
    | Some d =>
        match d !! key with
        | Some v => (Ok v, w)
        | None => (Raise (KeyError key), w)
        end
    | None => (Raise (TypeError "not a dict"), w)
    end.

(** [d[key].append(x)] *)
Definition dict_append (l : positive) (key : string) (x : float) : M unit :=
  let! v := dict_get l key in
  modify (fun w =>
    set_heap (alter (fun d => <[key := v ++ [x]]> d) l (w_heap w)) w).

(** The addresses of the two dicts built once, when the [def] statements
    run, as the defaults of the [loss] parameters. *)
Definition train_model_default_loss : positive := 1%positive.
Definition cross_validate_default_loss : positive := 2%positive.

(** The heap after the module is loaded: [{"train": [], "val": []}] and
    [{"mean": [], "std": []}]. *)
Definition module_heap : gmap positive (gmap string (list float)) :=
  <[train_model_default_loss := <["train" := []]> (<["val" := []]> ∅)]>
  (<[cross_validate_default_loss := <["mean" := []]> (<["std" := []]> ∅)]> ∅).

(** ** save_checkpoints *)

Definition save_checkpoints_params : list param :=
  [ mkParam "training_model" None; mkParam "optimizer" None;
    mkParam "logger" None; mkParam "root_path" None;
    mkParam "model_name" None; mkParam "loss" None; mkParam "e" None;
    mkParam "best_loss" None; mkParam "suffix" (Some (VStr "latest")) ].

(** The body, for arguments of the types the signature declares. *)
Definition save_checkpoints_body (root_path model_name : string)
  (loss : positive) (e : Z) (best_loss : float) (suffix : string) : M unit :=
  let save_path :=
    path_join root_path
      (String.append model_name (String.append "_" (String.append suffix ".ckpt"))) in
  fun w =>
    match w_heap w !! loss with
    | None => (Raise (TypeError "not a dict"), w)
    | Some h =>
        let record : Checkpoint :=
          [ ("epoch", SInt e);
            ("model_state_dict", SState (model_state_dict (w_model w)));
            ("optimizer_state_dict", SState (optim_state_dict (w_optim w)));
            ("loss", SHistory h);
            ("best_loss", SFloat best_loss) ] in
        (Ok tt, set_saved ((save_path, record) :: w_saved w) w)
    end.

(** A call [save_checkpoints( *args, **kwargs)]: the arguments are bound to
    the parameters first, and the body runs only if that succeeds.  Values
    of other types than the signature declares are outside the function's
    domain; the model rejects them. *)
Definition save_checkpoints (args : list pyval) (kwargs : list (string * pyval))
  : M unit :=
  let! env := lift (bind_args "save_checkpoints" save_checkpoints_params args kwargs) in
  match arg "training_model" env, arg "optimizer" env, arg "logger" env,
        arg "root_path" env, arg "model_name" env, arg "loss" env,
        arg "e" env, arg "best_loss" env, arg "suffix" env with
  | Some VModel, Some VOptim, Some VLogger,
    Some (VStr root_path), Some (VStr model_name), Some (VDict loss),
    Some (VInt e), Some (VFloat best_loss), Some (VStr suffix) =>
      save_checkpoints_body root_path model_name loss e best_loss suffix
  | _, _, _, _, _, _, _, _, _ =>
      raise (TypeError "save_checkpoints: argument of the wrong type")
  end.

(** ** train_single_fold *)

(** One turn of [for batch in dloader[dataset]]. *)
Definition run_batch (training : bool) (batch : Batch) (loss_epoch : float)
  : M float :=
  fun w =>
    let '(o1, m1) := zero_grad (w_optim w) (w_model w) in
    let '(m2, current_loss) := forward_loss training m1 batch in
    let '(o3, m3) :=
      if training then step o1 (backward m2 batch) else (o1, m2) in
    (Ok (PrimFloat.add loss_epoch
           (PrimFloat.mul current_loss (float_of_nat (batch_size0 batch)))),
     set_optim o3 (set_model m3 w)).

(** [{s: len(dset) for s, dset in dloader.items() if s in ["train", "val"]}];
    the [len] of a [DataLoader] is the number of batches it yields. *)
Definition dset_sizes (dloader : gmap string (DataLoader Dataset))
  : gmap string nat :=
  (fun dset => length (loader_batches dset)) <$>
    filter (fun kv => kv.1 ∈ ["train"; "val"]) dloader.

(** One turn of [for dataset in ["train", "val"]]: the mean loss appended
    to [loss].  [loss_epoch] starts as the int [0]; dividing by a size of
    [0] raises. *)
Definition run_phase (dloader : gmap string (DataLoader Dataset))
  (dset_size : gmap string nat) (dataset : string) : M float :=
  let training := String.eqb dataset "train" in
  modify (fun w =>
    set_model ((if training then model_train else model_eval) (w_model w)) w) ;;
  match dloader !! dataset with
  | None => raise (KeyError dataset)
  | Some dl =>
      let! loss_epoch := for_each (loader_batches dl) (run_batch training) 0%float in
      match dset_size !! dataset with
      | None => raise (KeyError dataset)
      | Some n =>
          if (n =? 0)%nat then raise ZeroDivisionError
          else ret (PrimFloat.div loss_epoch (float_of_nat n))
      end
  end.

Definition train_single_fold (dloader : gmap string (DataLoader Dataset))
  : M (list float) :=
  let dset_size := dset_sizes dloader in
  for_each ["train"; "val"]
    (fun dataset loss =>
       let! mean := run_phase dloader dset_size dataset in ret (loss ++ [mean]))
    [].

(** ** train_model *)

(** One epoch of [train_model]; the loop's local [best_val_loss] is passed
    along.  Both calls of [save_checkpoints] give five positional arguments
    and then keywords. *)
Definition train_model_epoch (dloader : gmap string (DataLoader Dataset))
  (root_path model_name : string) (loss : positive)
  (e : Z) (best_val_loss : float) : M float :=
  let! floss := train_single_fold dloader in
  let! floss0 := lift (py_index floss 0) in
  dict_append loss "train" floss0 ;;
  let! floss1 := lift (py_index floss 1) in
  dict_append loss "val" floss1 ;;
  let! vals := dict_get loss "val" in
  let! v := lift (py_last vals) in
  let! best_val_loss :=
    if PrimFloat.ltb v best_val_loss then
      let! vals := dict_get loss "val" in
      let! best_val_loss := lift (py_last vals) in
      save_checkpoints
        [VModel; VOptim; VStr root_path; VStr model_name; VDict loss]
        [("e", VInt e); ("suffix", VStr "best");
         ("best_loss", VFloat best_val_loss); ("logger", VLogger)] ;;
      ret best_val_loss
    else ret best_val_loss in
  save_checkpoints
    [VModel; VOptim; VStr root_path; VStr model_name; VDict loss]
    [("e", VInt e); ("best_loss", VFloat best_val_loss); ("logger", VLogger)] ;;
  ret best_val_loss.

(** [train_model]; [loss = None] stands for a call that leaves [loss] out,
    which then is the one dict built with the [def]. *)
Definition train_model (dloader : gmap string (DataLoader Dataset))
  (root_path : string) (model_name : option string)
  (epoches start_epoch : Z) (loss : option positive) (best_val_loss : float)
  : M unit :=
  let loss := default train_model_default_loss loss in
  let! w := get in
  let model_name := default (class_name (w_model w)) model_name in
  for_each (py_range start_epoch (start_epoch + epoches))
    (train_model_epoch dloader root_path model_name loss) best_val_loss ;;
  ret tt.

(** ** sklearn.model_selection.KFold *)

Record KFold : Type := mkKFold {
  kf_n_splits : Z;
  kf_shuffle : bool;
  kf_random_state : option Z
}.

(** [KFold(n_splits, shuffle=..., random_state=...)] *)
Definition KFold_init (n_splits : Z) (shuffle : bool) (random_state : option Z)
  : result KFold :=
  if n_splits <=? 1 then
    Raise (ValueError "k-fold cross-validation requires at least one train/test split")
  else if (negb shuffle && bool_decide (random_state ≠ None))%bool then
    Raise (ValueError "setting a random_state has no effect since shuffle is False")
  else Ok (mkKFold n_splits shuffle random_state).

(** The first [n mod k] folds have [n / k + 1] elements, the others
    [n / k]. *)
Definition fold_sizes (n k : nat) : list nat :=
  replicate (n mod k)%nat (n / k + 1)%nat ++ replicate (k - n mod k)%nat (n / k)%nat.

(** The test slices [indices[current : current + fold_size]], one fold size
    after the other. *)
Definition test_slices (indices : list nat) (sizes : list nat) : list (list nat) :=
  reshape sizes indices.

(** The pair (train, test) for one slice: the positions of [arange(n)]
    outside and inside the boolean mask of the slice. *)
Definition fold_of_slice (n : nat) (slice : list nat) : list nat * list nat :=
  (filter (fun i => i ∉ slice) (seq 0 n), filter (fun i => i ∈ slice) (seq 0 n)).

(** [check_random_state(seed).shuffle(indices)]: an int seed makes a
    generator of its own; without a seed numpy's global one is used, and
    advanced. *)
Definition shuffle_indices (random_state : option Z) (indices : list nat)
  : M (list nat) :=
  fun w =>
    match random_state with
    | Some seed => (Ok (rng_shuffle (rng_seed seed) indices).1, w)
    | None =>
        let '(l, g) := rng_shuffle (w_np_rng w) indices in
        (Ok l, set_np_rng g w)
    end.

(** [list(kf.split(X))] for [X] of [n_samples] rows. *)
Definition KFold_split (kf : KFold) (n_samples : nat)
  : M (list (list nat * list nat)) :=
  if Z.of_nat n_samples <? kf_n_splits kf then
    raise (ValueError "cannot have number of splits greater than the number of samples")
  else
    let! indices :=
      if kf_shuffle kf then shuffle_indices (kf_random_state kf) (seq 0 n_samples)
      else ret (seq 0 n_samples) in
    ret (fold_of_slice n_samples <$>
           test_slices indices (fold_sizes n_samples (Z.to_nat (kf_n_splits kf)))).

(** ** cross_validate *)

(** The loaders of one fold: [{"train": DataLoader(...), "val": DataLoader(...)}].
    torch takes batch sizes from 1 on; what its constructor does with a
    smaller one is left out here. *)
Definition fold_loaders (dataset : Dataset) (batch_size : Z)
  (fold : list nat * list nat) : gmap string (DataLoader Dataset) :=
  <["train" := mkDataLoader dataset batch_size fold.1]>
  (<["val" := mkDataLoader dataset batch_size fold.2]> ∅).

(** The list [dloader] built before the first epoch, one entry per fold of
    [KFold(n_splits=n_splits, shuffle=True, random_state=42)]. *)
Definition cross_validate_loaders (dataset : Dataset) (n_splits batch_size : Z)
  : M (list (gmap string (DataLoader Dataset))) :=
  let! kf := lift (KFold_init n_splits true (Some 42)) in
  let! folds := KFold_split kf (dataset_len dataset) in
  ret (fold_loaders dataset batch_size <$> folds).

(** [for fold in range(n_splits)]: the list [fold_loss]. *)
Definition cross_validate_folds
  (single_fold_func : gmap string (DataLoader Dataset) -> M (list float))
  (dloader : list (gmap string (DataLoader Dataset))) (n_splits : Z)
  : M (list float) :=
  for_each (py_range 0 n_splits)
    (fun fold fold_loss =>
       let! dl := lift (py_index dloader (Z.to_nat fold)) in
       let! floss := single_fold_func dl in
       let! x := lift (py_last floss) in
       ret (fold_loss ++ [x]))
    [].

(** One epoch of [cross_validate]; the local [best_loss] is passed along.
    Both calls of [save_checkpoints] give keywords only. *)
Definition cross_validate_epoch
  (single_fold_func : gmap string (DataLoader Dataset) -> M (list float))
  (dloader : list (gmap string (DataLoader Dataset))) (n_splits : Z)
  (root_path prefix : string) (loss : positive)
  (e : Z) (best_loss : float) : M float :=
  let! fold_loss := cross_validate_folds single_fold_func dloader n_splits in
  let fold_loss_mean := np_mean fold_loss in
  let fold_loss_std := np_std fold_loss in
  dict_append loss "mean" fold_loss_mean ;;
  dict_append loss "std" fold_loss_std ;;
  let! best_loss :=
    if PrimFloat.ltb fold_loss_mean best_loss then
      let best_loss := fold_loss_mean in
      save_checkpoints []
        [("training_model", VModel); ("optimizer", VOptim);
         ("model_name", VStr prefix); ("root_path", VStr root_path);
         ("loss", VDict loss); ("e", VInt e); ("suffix", VStr "best");
         ("best_loss", VFloat best_loss); ("logger", VLogger)] ;;
      ret best_loss
    else ret best_loss in
  save_checkpoints []
    [("training_model", VModel); ("optimizer", VOptim);
     ("model_name", VStr prefix); ("root_path", VStr root_path);
     ("e", VInt e); ("loss", VDict loss);
     ("best_loss", VFloat best_loss); ("logger", VLogger)] ;;
  ret best_loss.

(** [cross_validate]; [loss = None] stands for a call that leaves [loss]
    out, which then is the one dict built with the [def]. *)
Definition cross_validate (dataset : Dataset)
  (single_fold_func : gmap string (DataLoader Dataset) -> M (list float))
  (n_splits batch_size epoches start_epoches : Z)
  (root_path : string) (prefix : option string)
  (loss : option positive) (best_loss : float) : M unit :=
  let loss := default cross_validate_default_loss loss in
  let! w := get in
  let prefix := default (class_name (w_model w)) prefix in
  let! dloader := cross_validate_loaders dataset n_splits batch_size in
  for_each (py_range start_epoches (start_epoches + epoches))
    (cross_validate_epoch single_fold_func dloader n_splits root_path prefix loss)
    best_loss ;;
  ret tt.

(** The best loss an epoch hands on. *)
Definition next_best (loss_now best : float) : float :=
  if PrimFloat.ltb loss_now best then loss_now else best.

(** The record an epoch of [cross_validate] saves. *)
Definition epoch_record (w : World) (h : gmap string (list float)) (e : Z)
  (best : float) : Checkpoint :=
  [ ("epoch", SInt e);
    ("model_state_dict", SState (model_state_dict (w_model w)));
    ("optimizer_state_dict", SState (optim_state_dict (w_optim w)));
    ("loss", SHistory h);
    ("best_loss", SFloat best) ].

(** [path.join(root_path, f"{model_name}_{suffix}.ckpt")] *)
Definition checkpoint_path (root_path name suffix : string) : string :=
  path_join root_path
    (String.append name (String.append "_" (String.append suffix ".ckpt"))).

(** The list under [key] of the history dict at address [l], if both
    exist. *)
Definition history (l : positive) (key : string) (w : World)
  : option (list float) :=
  w_heap w !! l ≫= fun d => d !! key.

(** ** What a checkpoint record is read by *)

(** The field names of a record, in the order written. *)
Definition field_names (c : Checkpoint) : list string := c.*1.

End Program.

(** ** A deterministic stub of the collaborators

    The model and the optimizer count the optimizer steps taken; a dataset
    row is a ready batch, given by the loss reported on it and its number
    of examples; a loader yields the rows its sampler names, in order.  The
    stub generator rotates the list by its state. *)
Module Stub.

#[global] Instance torch : Torch := {|
  Model := nat;
  Optim := nat;
  StateDict := nat;
  Batch := float * nat;
  Dataset := list (float * nat);
  class_name := fun _ => "Net";
  model_train := fun m => m;
  model_eval := fun m => m;
  model_state_dict := fun m => m;
  optim_state_dict := fun o => o;
  zero_grad := fun o m => (o, m);
  step := fun o m => (S o, S m);
  forward_loss := fun _ m b => (m, b.1);
  backward := fun m _ => m;
  batch_size0 := fun b => b.2;
  dataset_len := fun d => length d;
  loader_batches := fun dl => omap (fun i => dl_dataset dl !! i) (dl_sampler dl)
|}.

#[global] Instance numpy_random : NumpyRandom := {|
  Rng := nat;
  rng_seed := Z.to_nat;
  rng_shuffle := fun g l => (rotate g l, S g)
|}.

(** The state right after the module is loaded. *)
Definition world0 : World := mkWorld 0%nat 0%nat module_heap [] 0%nat.

(** A loader over ready batches. *)
Definition feed (batches : list (float * nat)) : DataLoader (list (float * nat)) :=
  mkDataLoader batches 1 (seq 0 (length batches)).

(** The feeds of the example: two batches of 4 and 6 examples with losses
    2.0 and 3.0, for both phases. *)
Definition feeds_4_6 : gmap string (DataLoader (list (float * nat))) :=
  <["train" := feed [(2%float, 4%nat); (3%float, 6%nat)]]>
  (<["val" := feed [(2%float, 4%nat); (3%float, 6%nat)]]> ∅).

(** A substitute for [train_single_fold] with the validation loss [v]. *)
Definition single_fold_fixed (v : float)
  : gmap string (DataLoader (list (float * nat))) -> M (list float) :=
  fun _ => ret [0%float; v].

(** A substitute for [train_single_fold] whose validation loss is the
    number of the call, counted in the model: 1, 2, 3, ... *)
Definition single_fold_counting
  : gmap string (DataLoader (list (float * nat))) -> M (list float) :=
  fun _ w =>
    (Ok [0%float; float_of_nat (S (w_model w))], set_model (S (w_model w)) w).

(** A dataset of [n] rows. *)
Definition rows (n : nat) : list (float * nat) := replicate n (1%float, 1%nat).

(** The loaders [cross_validate] builds for [rows n] and [k] folds. *)
Definition loaders (n : nat) (k : Z)
  : list (gmap string (DataLoader (list (float * nat)))) :=
  match (cross_validate_loaders (rows n) k 1 world0).1 with
  | Ok dloader => dloader
  | Raise _ => []
  end.

(** A history dict of the caller's own, [{"train": [], "val": []}], and
    the state with it in the heap. *)
Definition caller_history : positive := 3%positive.

Definition world_with_history : World :=
  set_heap (<[caller_history := <["train" := []]> (<["val" := []]> ∅)]> module_heap)
    world0.

(** The message of the exception the calls in [train_model] end in. *)
Definition logger_twice : exn :=
  TypeError "save_checkpoints() got multiple values for argument 'logger'".

End Stub.

(** ** Properties the statements below are phrased with *)

(** torch's [zero_grad] resets the gradients the parameters hold and
    leaves the optimizer as it is. *)
Definition zero_grad_keeps_optimizer `{T : Torch} : Prop :=
  forall (o : Optim) (m : Model), (zero_grad o m).1 = o.

(** numpy's [shuffle] reorders its argument. *)
Definition shuffle_permutes `{NR : NumpyRandom} : Prop :=
  forall (g : Rng) (l : list nat), (rng_shuffle g l).1 ≡ₚ l.

(** The index list of the sampler under [key] in a fold's loaders. *)
Definition sampler_of `{T : Torch} (key : string)
  (d : gmap string (DataLoader Dataset)) : list nat :=
  default [] (dl_sampler <$> d !! key).

(** The fold loop of one epoch, told as the spec tells it: the folds are
    visited in order, the trainer runs once on each, each run starting in
    the state the previous one left, and the last loss of each run is
    collected. *)
Inductive folds_run `{T : Torch} `{NR : NumpyRandom}
  (single_fold_func : gmap string (DataLoader Dataset) -> M (list float))
  : list (gmap string (DataLoader Dataset)) -> World -> list float -> World -> Prop :=
| folds_run_nil w : folds_run single_fold_func [] w [] w
| folds_run_cons dl dls w floss x w1 xs w2 :
    single_fold_func dl w = (Ok floss, w1) ->
    last floss = Some x ->
    folds_run single_fold_func dls w1 xs w2 ->
    folds_run single_fold_func (dl :: dls) w (x :: xs) w2.

(** The field names the spec lists for a checkpoint record. *)
Definition spec_field_names : list string :=
  ["epoch"; "model_state"; "optimizer_state"; "loss"; "best_loss"].

(** The field names [save_checkpoints] writes. *)
Definition code_field_names : list string :=
  ["epoch"; "model_state_dict"; "optimizer_state_dict"; "loss"; "best_loss"].

(** ** get_train_info_logger and the root logger

    The [logging] module keeps one root logger, which [getLogger()]
    returns: its handlers and its level are state shared by every caller.
    A handler is an object with an identity of its own; [addHandler]
    appends a handler unless that very object is among the handlers
    already. *)

Inductive handler_kind : Type :=
| FileHandler (filename : string)
| StreamHandler.

#[global] Instance handler_kind_eq_dec : EqDecision handler_kind.
Proof. solve_decision. Defined.

Record handler : Type := mkHandler {
  h_id : nat;
  h_kind : handler_kind;
  h_formatter : option string
}.

Record root_logger : Type := mkRootLogger {
  lg_handlers : list handler;
  lg_level : Z;
  (** the identity the next object built gets *)
  lg_next_id : nat
}.

(** [logging.INFO] and [logging.WARNING], the level of the root logger
    when the module is loaded. *)
Definition INFO : Z := 20.
Definition WARNING : Z := 30.

Definition root_logger0 : root_logger := mkRootLogger [] WARNING 0.

(** [logger.addHandler(hdlr)] *)
Definition addHandler (hdlr : handler) (lg : root_logger) : root_logger :=
  if bool_decide (h_id hdlr ∈ h_id <$> lg_handlers lg) then lg
  else mkRootLogger (lg_handlers lg ++ [hdlr]) (lg_level lg) (lg_next_id lg).

(** [logger.setLevel(level)] *)
Definition setLevel (level : Z) (lg : root_logger) : root_logger :=
  mkRootLogger (lg_handlers lg) level (lg_next_id lg).

Definition train_info_format : string :=
  "[%(asctime)s]: %(levelname)-8s - %(message)s".

(** [get_train_info_logger(filepath, show_in_terminal)].  [FileHandler]
    opens the file when it is built; [can_open] tells whether that
    succeeds, and [None] stands for the [OSError] it raises otherwise,
    before the logger is touched.  The result is the root logger in its new
    state. *)
Definition get_train_info_logger (can_open : string -> bool)
  (filepath : string) (show_in_terminal : bool) (lg : root_logger)
  : option root_logger :=
  let formatter := train_info_format in
  if negb (can_open filepath) then None
  else
    let file_handler :=
      mkHandler (lg_next_id lg) (FileHandler filepath) (Some formatter) in
    let stream_handler :=
      mkHandler (S (lg_next_id lg)) StreamHandler (Some formatter) in
    let logger :=
      mkRootLogger (lg_handlers lg) (lg_level lg) (S (S (lg_next_id lg))) in
    let logger := addHandler file_handler logger in
    let logger :=
      if show_in_terminal then addHandler stream_handler logger else logger in
    Some (setLevel INFO logger).

(** [n] calls in a row, each on the logger the one before left. *)
Fixpoint get_train_info_logger_times (n : nat) (can_open : string -> bool)
  (filepath : string) (show_in_terminal : bool) (lg : root_logger)
  : option root_logger :=
  match n with
  | O => Some lg
  | S n' =>
      match get_train_info_logger can_open filepath show_in_terminal lg with
      | Some lg' =>
          get_train_info_logger_times n' can_open filepath show_in_terminal lg'
      | None => None
      end
  end.

(** The handlers of the root logger that write to [filename]. *)
Definition file_handlers (filename : string) (lg : root_logger) : list handler :=
  filter (fun h => h_kind h = FileHandler filename) (lg_handlers lg).

(** Every handler on the logger was built before now. *)
Definition handlers_known (lg : root_logger) : Prop :=
  Forall (fun h => (h_id h < lg_next_id lg)%nat) (lg_handlers lg).

(** ** Reading checkpoints back *)

(** The value under [name] in a record. *)
Fixpoint field {SD} (name : string) (c : list (string * saved SD))
  : option (saved SD) :=
  match c with
  | [] => None
  | (k, v) :: c' => if String.eqb k name then Some v else field name c'
  end.

(** The epoch numbers of the records saved under [path], latest first. *)
Definition saved_epochs `{T : Torch} `{NR : NumpyRandom} (path : string)
  (w : World) : list Z :=
  omap (fun pc : string * Checkpoint =>
          if String.eqb pc.1 path then
            match field "epoch" pc.2 with
            | Some (SInt e) => Some e
            | _ => None
            end
          else None)
       (w_saved w).

(** The loaders under the keys [train_single_fold] reads. *)
Definition train_val_only `{T : Torch}
  (dloader : gmap string (DataLoader Dataset)) : gmap string (DataLoader Dataset) :=
  filter (fun kv => kv.1 ∈ ["train"; "val"]) dloader.

(** * Properties *)

Section Facts.
Context `{T : Torch} `{NR : NumpyRandom}.

(** ** Sequencing and loops *)

Lemma bind_ok {A B} (c : M A) (k : A -> M B) w a w1 :
  c w = (Ok a, w1) -> bind c k w = k a w1.
Proof. intros Hc. unfold bind. by rewrite Hc. Qed.

Lemma bind_raise {A B} (c : M A) (k : A -> M B) w e w1 :
  c w = (Raise e, w1) -> bind c k w = (Raise e, w1).
Proof. intros Hc. unfold bind. by rewrite Hc. Qed.

(** What both halves of a sequence leave alone, the sequence leaves alone. *)
Lemma bind_keeps {A B X} (obs : World -> X) (c : M A) (k : A -> M B) w :
  obs (c w).2 = obs w ->
  (forall a w1, obs (k a w1).2 = obs w1) ->
  obs (bind c k w).2 = obs w.
Proof.
  intros Hc Hk. unfold bind.
  destruct (c w) as [[a|e] w1]; simpl in *; [by rewrite Hk | done].
Qed.

(** What every turn of a loop leaves alone, the loop leaves alone. *)
Lemma for_each_keeps {A S X} (obs : World -> X) (body : A -> S -> M S) l :
  (forall x s w, obs (body x s w).2 = obs w) ->
  forall s w, obs (for_each l body s w).2 = obs w.
Proof.
  intros Hbody. induction l as [|x l IH]; intros s w; simpl; [done|].
  apply bind_keeps; [apply Hbody | intros; apply IH].
Qed.

Lemma lift_keeps {A X} (obs : World -> X) (r : result A) w :
  obs (lift r w).2 = obs w.
Proof. done. Qed.

(** ** train_single_fold *)

Lemma run_batch_saved training b acc w :
  w_saved (run_batch training b acc w).2 = w_saved w.
Proof.
  unfold run_batch. destruct (zero_grad _ _) as [o1 m1].
  destruct (forward_loss _ _ _) as [m2 l].
  by destruct (if training then _ else _) as [o3 m3].
Qed.

Lemma run_batch_heap training b acc w :
  w_heap (run_batch training b acc w).2 = w_heap w.
Proof.
  unfold run_batch. destruct (zero_grad _ _) as [o1 m1].
  destruct (forward_loss _ _ _) as [m2 l].
  by destruct (if training then _ else _) as [o3 m3].
Qed.

(** A validation batch leaves the optimizer alone: [step] is not called,
    and [zero_grad] is. *)
Lemma run_batch_eval_optim b acc w :
  zero_grad_keeps_optimizer ->
  w_optim (run_batch false b acc w).2 = w_optim w.
Proof.
  intros Hz. unfold run_batch.
  specialize (Hz (w_optim w) (w_model w)).
  destruct (zero_grad _ _) as [o1 m1]. simpl in Hz. subst o1.
  by destruct (forward_loss _ _ _) as [m2 l].
Qed.

Lemma run_phase_keeps {X} (obs : World -> X) dloader sizes dataset :
  (forall m w, obs (set_model m w) = obs w) ->
  (forall b acc w,
     obs (run_batch (String.eqb dataset "train") b acc w).2 = obs w) ->
  forall w, obs (run_phase dloader sizes dataset w).2 = obs w.
Proof.
  intros Hm Hb w. unfold run_phase.
  apply bind_keeps; [apply Hm|]. intros _ w1.
  destruct (dloader !! dataset) as [dl|]; [|done].
  apply bind_keeps; [by apply for_each_keeps|]. intros loss_epoch w2.
  destruct (sizes !! dataset) as [n|]; [|done].
  by destruct (n =? 0)%nat.
Qed.

Lemma train_single_fold_keeps {X} (obs : World -> X) dloader :
  (forall m w, obs (set_model m w) = obs w) ->
  (forall training b acc w, obs (run_batch training b acc w).2 = obs w) ->
  forall w, obs (train_single_fold dloader w).2 = obs w.
Proof.
  intros Hm Hb w. unfold train_single_fold.
  apply for_each_keeps. intros dataset loss w1.
  apply bind_keeps; [by apply run_phase_keeps | done].
Qed.

(** A pass over the batches does not raise. *)
Lemma run_batches_ok training batches acc w :
  exists s w1, for_each batches (run_batch training) acc w = (Ok s, w1).
Proof.
  revert acc w. induction batches as [|b batches IH]; intros acc w; simpl.
  - by eexists _, _.
  - unfold bind.
    destruct (run_batch training b acc w) as [[s|e] w1] eqn:Hb.
    + apply IH.
    + exfalso. revert Hb. unfold run_batch.
      destruct (zero_grad _ _) as [o1 m1].
      destruct (forward_loss _ _ _) as [m2 l].
      by destruct (if training then _ else _) as [o3 m3].
Qed.

Lemma dset_sizes_lookup dloader dataset dl :
  dataset ∈ ["train"; "val"] ->
  dloader !! dataset = Some dl ->
  dset_sizes dloader !! dataset = Some (length (loader_batches dl)).
Proof.
  intros Hin Hdl. unfold dset_sizes. rewrite lookup_fmap.
  by rewrite (map_lookup_filter_Some_2 _ _ _ _ Hdl Hin).
Qed.

(** The value a phase returns: the accumulated sum divided by the number
    of batches of the loader. *)
Lemma run_phase_mean dloader dataset dl w s w1 :
  dataset ∈ ["train"; "val"] ->
  dloader !! dataset = Some dl ->
  loader_batches dl <> [] ->
  for_each (loader_batches dl) (run_batch (String.eqb dataset "train")) 0%float
    (set_model
       ((if String.eqb dataset "train" then model_train else model_eval)
          (w_model w)) w)
  = (Ok s, w1) ->
  run_phase dloader (dset_sizes dloader) dataset w
  = (Ok (PrimFloat.div s (float_of_nat (length (loader_batches dl)))), w1).
Proof.
  intros Hin Hdl Hne Hloop. unfold run_phase.
  unfold bind at 1. unfold modify at 1. rewrite Hdl.
  unfold bind at 1. rewrite Hloop.
  rewrite (dset_sizes_lookup _ _ _ Hin Hdl).
  destruct (loader_batches dl) as [|b bs]; [done|]. done.
Qed.

(** With a loader of at least one batch under each of the two keys,
    [train_single_fold] returns, and returns the pair of the two means. *)
Lemma train_single_fold_ok dloader dl_train dl_val w :
  dloader !! "train" = Some dl_train ->
  dloader !! "val" = Some dl_val ->
  loader_batches dl_train <> [] ->
  loader_batches dl_val <> [] ->
  exists st sv w1,
    train_single_fold dloader w =
      (Ok [PrimFloat.div st (float_of_nat (length (loader_batches dl_train)));
           PrimFloat.div sv (float_of_nat (length (loader_batches dl_val)))], w1).
Proof.
  intros Ht Hv Hnt Hnv. unfold train_single_fold. cbn [for_each].
  destruct (run_batches_ok true (loader_batches dl_train) 0%float
              (set_model (model_train (w_model w)) w)) as (st & w1 & Hst).
  destruct (run_batches_ok false (loader_batches dl_val) 0%float
              (set_model (model_eval (w_model w1)) w1)) as (sv & w2 & Hsv).
  exists st, sv, w2.
  unfold bind at 1. unfold bind at 1.
  rewrite (run_phase_mean dloader "train" dl_train w st w1)
    by (done || set_solver).
  unfold ret at 1.
  unfold bind at 1. unfold bind at 1.
  rewrite (run_phase_mean dloader "val" dl_val w1 sv w2)
    by (done || set_solver).
  done.
Qed.

(** C3: the validation pass of [train_single_fold] leaves the optimizer as
    it found it: [optimizer.step] is not called in it, and
    [optimizer.zero_grad], which is called for every batch, clears the
    gradients the parameters hold and nothing of the optimizer. *)
Theorem validation_pass_keeps_optimizer :
  zero_grad_keeps_optimizer ->
  forall dloader sizes w,
    w_optim (run_phase dloader sizes "val" w).2 = w_optim w.
Proof.
  intros Hz dloader sizes w.
  apply (run_phase_keeps w_optim); [done|].
  intros b acc w1. change (String.eqb "val" "train") with false.
  by apply run_batch_eval_optim.
Qed.

(** ** save_checkpoints *)

Lemma save_checkpoints_body_saved root_path model_name loss e best_loss suffix w :
  exists new,
    w_saved (save_checkpoints_body root_path model_name loss e best_loss suffix w).2
      = new ++ w_saved w /\
    (length new <= 1)%nat /\
    Forall (fun pc => field_names pc.2 = code_field_names /\ length pc.2 = 5%nat) new.
Proof.
  unfold save_checkpoints_body.
  destruct (w_heap w !! loss) as [h|]; simpl.
  - eexists [_]. split; [done|]. split; [simpl; lia|]. by repeat constructor.
  - exists []. split; [done|]. split; [simpl; lia | constructor].
Qed.

(** What a successful save adds: one record under the joined path, with the
    epoch, the two state dicts, the history as it is now and the best loss. *)
Lemma save_checkpoints_body_ok root_path model_name loss e best_loss suffix w h :
  w_heap w !! loss = Some h ->
  save_checkpoints_body root_path model_name loss e best_loss suffix w =
    (Ok tt,
     set_saved
       ((path_join root_path
           (String.append model_name
              (String.append "_" (String.append suffix ".ckpt"))),
         [ ("epoch", SInt e);
           ("model_state_dict", SState (model_state_dict (w_model w)));
           ("optimizer_state_dict", SState (optim_state_dict (w_optim w)));
           ("loss", SHistory h);
           ("best_loss", SFloat best_loss) ]) :: w_saved w) w).
Proof. intros Hh. unfold save_checkpoints_body. by rewrite Hh. Qed.

(** The calls in [cross_validate] name every argument: they bind. *)
Lemma save_checkpoints_keywords_best prefix root_path loss e best_loss w :
  save_checkpoints []
    [("training_model", VModel); ("optimizer", VOptim);
     ("model_name", VStr prefix); ("root_path", VStr root_path);
     ("loss", VDict loss); ("e", VInt e); ("suffix", VStr "best");
     ("best_loss", VFloat best_loss); ("logger", VLogger)] w
  = save_checkpoints_body root_path prefix loss e best_loss "best" w.
Proof. reflexivity. Qed.

Lemma save_checkpoints_keywords_latest prefix root_path loss e best_loss w :
  save_checkpoints []
    [("training_model", VModel); ("optimizer", VOptim);
     ("model_name", VStr prefix); ("root_path", VStr root_path);
     ("e", VInt e); ("loss", VDict loss);
     ("best_loss", VFloat best_loss); ("logger", VLogger)] w
  = save_checkpoints_body root_path prefix loss e best_loss "latest" w.
Proof. reflexivity. Qed.

(** The calls in [train_model] give five positional arguments, which fill
    [training_model], [optimizer], [logger], [root_path] and [model_name],
    and then [logger] again by keyword: the call raises before the body
    runs. *)
Lemma save_checkpoints_positional_best root_path model_name loss e best_loss w :
  save_checkpoints
    [VModel; VOptim; VStr root_path; VStr model_name; VDict loss]
    [("e", VInt e); ("suffix", VStr "best");
     ("best_loss", VFloat best_loss); ("logger", VLogger)] w
  = (Raise (TypeError "save_checkpoints() got multiple values for argument 'logger'"), w).
Proof. reflexivity. Qed.

Lemma save_checkpoints_positional_latest root_path model_name loss e best_loss w :
  save_checkpoints
    [VModel; VOptim; VStr root_path; VStr model_name; VDict loss]
    [("e", VInt e); ("best_loss", VFloat best_loss); ("logger", VLogger)] w
  = (Raise (TypeError "save_checkpoints() got multiple values for argument 'logger'"), w).
Proof. reflexivity. Qed.

(** C2: every record [save_checkpoints] writes, for whatever arguments and
    in whatever state, has five fields, named [epoch], [model_state_dict],
    [optimizer_state_dict], [loss] and [best_loss], in this order; a call
    writes one record or, when it raises, none. *)
Theorem save_checkpoints_field_names args kwargs w :
  exists new,
    w_saved (save_checkpoints args kwargs w).2 = new ++ w_saved w /\
    (length new <= 1)%nat /\
    Forall (fun pc => field_names pc.2 = code_field_names /\ length pc.2 = 5%nat) new.
Proof.
  assert (Hnone : forall w0 : World,
    exists new : list (string * Checkpoint),
      w_saved w0 = new ++ w_saved w0 /\ (length new <= 1)%nat /\
      Forall (fun pc => field_names pc.2 = code_field_names /\ length pc.2 = 5%nat) new).
  { intros w0. exists []. split; [done|]. split; [simpl; lia | constructor]. }
  unfold save_checkpoints, bind, lift.
  destruct (bind_args _ _ _ _) as [env|err]; [|apply Hnone].
  repeat (case_match; try apply Hnone);
    apply save_checkpoints_body_saved.
Qed.

(** ** History dicts *)

Lemma dict_get_world l key w : (dict_get l key w).2 = w.
Proof.
  unfold dict_get. destruct (w_heap w !! l) as [d|]; [|done].
  by destruct (d !! key).
Qed.

Lemma dict_get_ok l key w d v :
  w_heap w !! l = Some d -> d !! key = Some v -> dict_get l key w = (Ok v, w).
Proof. intros Hl Hk. unfold dict_get. by rewrite Hl, Hk. Qed.

Lemma dict_append_ok l key x w d v :
  w_heap w !! l = Some d -> d !! key = Some v ->
  dict_append l key x w =
    (Ok tt, set_heap (<[l := <[key := v ++ [x]]> d]> (w_heap w)) w).
Proof.
  intros Hl Hk. unfold dict_append.
  rewrite (bind_ok _ _ _ _ _ (dict_get_ok _ _ _ _ _ Hl Hk)).
  unfold modify. do 2 f_equal.
  apply map_eq. intros i. rewrite lookup_alter, lookup_insert.
  destruct (decide (l = i)) as [->|]; [by rewrite Hl | done].
Qed.

Lemma dict_append_saved l key x w :
  w_saved (dict_append l key x w).2 = w_saved w.
Proof.
  unfold dict_append. apply bind_keeps; [by rewrite dict_get_world | done].
Qed.

(** ** train_model *)

Lemma bind_not_ok {A B} (c : M A) (k : A -> M B) w :
  (forall a w1, is_ok (k a w1).1 = false) -> is_ok (bind c k w).1 = false.
Proof.
  intros Hk. unfold bind. destruct (c w) as [[a|e] w1]; [apply Hk | done].
Qed.

(** No epoch of [train_model] comes to its end: whatever happens before,
    the call that should write the latest checkpoint raises. *)
Lemma train_model_epoch_not_ok dloader root_path model_name loss e best w :
  is_ok (train_model_epoch dloader root_path model_name loss e best w).1 = false.
Proof.
  unfold train_model_epoch.
  do 8 (apply bind_not_ok; intros ? ?).
  unfold bind. by rewrite save_checkpoints_positional_latest.
Qed.

(** Nor does an epoch of [train_model] write any checkpoint. *)
Lemma train_model_epoch_saved dloader root_path model_name loss e best w :
  w_saved (train_model_epoch dloader root_path model_name loss e best w).2
    = w_saved w.
Proof.
  unfold train_model_epoch.
  apply bind_keeps;
    [apply train_single_fold_keeps; [done | apply run_batch_saved]|].
  intros floss w1. apply bind_keeps; [done|]. intros floss0 w2.
  apply bind_keeps; [apply dict_append_saved|]. intros _ w3.
  apply bind_keeps; [done|]. intros floss1 w4.
  apply bind_keeps; [apply dict_append_saved|]. intros _ w5.
  apply bind_keeps; [by rewrite dict_get_world|]. intros vals w6.
  apply bind_keeps; [done|]. intros v w7.
  apply bind_keeps.
  - destruct (PrimFloat.ltb v best); [|done].
    apply bind_keeps; [by rewrite dict_get_world|]. intros vals' w8.
    apply bind_keeps; [done|]. intros best' w9.
    apply bind_keeps; [by rewrite save_checkpoints_positional_best | done].
  - intros best' w8.
    apply bind_keeps; [by rewrite save_checkpoints_positional_latest | done].
Qed.

(** [train_model] writes no checkpoint at all, for any arguments. *)
Lemma train_model_saved dloader root_path model_name epoches start_epoch loss best w :
  w_saved
    (train_model dloader root_path model_name epoches start_epoch loss best w).2
    = w_saved w.
Proof.
  unfold train_model.
  apply bind_keeps; [done|]. intros w0 w1.
  apply bind_keeps; [|done].
  apply for_each_keeps. intros e b w2. apply train_model_epoch_saved.
Qed.

Lemma py_range_cons a b : a < b -> py_range a b = a :: py_range (a + 1) b.
Proof.
  intros Hab. unfold py_range.
  replace (Z.to_nat (b - a)) with (S (Z.to_nat (b - (a + 1)))) by lia.
  cbn [seq fmap list_fmap]. f_equal; [lia|].
  rewrite <- seq_shift, <- list_fmap_compose.
  apply list_fmap_ext. intros _ i _. simpl. lia.
Qed.

Lemma py_range_nil a b : b <= a -> py_range a b = [].
Proof. intros Hab. unfold py_range. by replace (Z.to_nat (b - a)) with 0%nat by lia. Qed.

(** With at least one epoch to run, [train_model] ends in an exception. *)
Lemma train_model_not_ok dloader root_path model_name epoches start_epoch loss best w :
  0 < epoches ->
  is_ok
    (train_model dloader root_path model_name epoches start_epoch loss best w).1
    = false.
Proof.
  intros Hpos. unfold train_model.
  apply bind_not_ok. intros w0 w1. unfold bind at 1.
  rewrite py_range_cons by lia. cbn [for_each]. unfold bind at 1.
  pose proof (train_model_epoch_not_ok dloader root_path
    (default (class_name (w_model w0)) model_name)
    (default train_model_default_loss loss) start_epoch best w1) as Hno.
  destruct (train_model_epoch _ _ _ _ _ _ _) as [[b|err] w2]; [done | done].
Qed.

(** ** cross_validate: one epoch *)

(** The fold loop does what [folds_run] tells: started behind the folds
    [pre], with [acc] collected so far, it collects the losses of the
    folds that remain. *)
Lemma folds_run_loop single_fold_func dls w xs w' :
  folds_run single_fold_func dls w xs w' ->
  forall pre acc,
    for_each
      (py_range (Z.of_nat (length pre)) (Z.of_nat (length (pre ++ dls))))
      (fun fold fold_loss =>
         bind (lift (py_index (pre ++ dls) (Z.to_nat fold))) (fun dl =>
         bind (single_fold_func dl) (fun floss =>
         bind (lift (py_last floss)) (fun x => ret (fold_loss ++ [x])))))
      acc w
    = (Ok (acc ++ xs), w').
Proof.
  induction 1 as [w|dl dls w floss x w1 xs w2 Hrun Hlast _ IH]; intros pre acc.
  - rewrite app_nil_r, py_range_nil by lia. simpl. unfold ret.
    by rewrite app_nil_r.
  - rewrite py_range_cons by (rewrite length_app; simpl; lia).
    cbn [for_each]. unfold bind at 1. unfold bind at 1.
    unfold lift at 1, py_index. rewrite Nat2Z.id, list_lookup_middle by done.
    unfold bind at 1. rewrite Hrun.
    unfold bind at 1. unfold lift at 1, py_last. rewrite Hlast.
    unfold ret at 1.
    specialize (IH (pre ++ [dl]) (acc ++ [x])).
    rewrite <- !(assoc_L (++)) in IH. simpl in IH.
    rewrite length_app in IH. simpl in IH.
    replace (Z.of_nat (length pre) + 1) with (Z.of_nat (length pre + 1)) by lia.
    apply IH.
Qed.

Lemma folds_run_length single_fold_func dls w xs w' :
  folds_run single_fold_func dls w xs w' -> length xs = length dls.
Proof. induction 1; simpl; congruence. Qed.

Lemma cross_validate_folds_run single_fold_func dloader w fl w1 :
  folds_run single_fold_func dloader w fl w1 ->
  cross_validate_folds single_fold_func dloader (Z.of_nat (length dloader)) w
    = (Ok fl, w1).
Proof.
  intros Hrun. unfold cross_validate_folds.
  apply (folds_run_loop _ _ _ _ _ Hrun [] []).
Qed.

(** One epoch of [cross_validate], in full: the two appends, then the best
    checkpoint if the mean is below the best so far, then the latest one. *)
Lemma cross_validate_epoch_run single_fold_func dloader root_path prefix loss
    e best w fl w1 h ms ss :
  folds_run single_fold_func dloader w fl w1 ->
  w_heap w1 !! loss = Some h ->
  h !! "mean" = Some ms ->
  h !! "std" = Some ss ->
  let m := np_mean fl in
  let h' := <["std" := ss ++ [np_std fl]]> (<["mean" := ms ++ [m]]> h) in
  let w2 := set_heap (<[loss := h']> (w_heap w1)) w1 in
  cross_validate_epoch single_fold_func dloader (Z.of_nat (length dloader))
    root_path prefix loss e best w
  = (Ok (next_best m best),
     set_saved
       ((checkpoint_path root_path prefix "latest",
         epoch_record w1 h' e (next_best m best)) ::
        (if PrimFloat.ltb m best
         then [(checkpoint_path root_path prefix "best", epoch_record w1 h' e m)]
         else []) ++ w_saved w1) w2).
Proof.
  intros Hrun Hh Hm Hs m h' w2. unfold cross_validate_epoch.
  rewrite (bind_ok _ _ _ _ _ (cross_validate_folds_run _ _ _ _ _ Hrun)).
  rewrite (bind_ok _ _ _ _ _ (dict_append_ok _ _ _ _ _ _ Hh Hm)).
  assert (Hs' : <["mean" := ms ++ [m]]> h !! "std" = Some ss)
    by (by rewrite lookup_insert_ne).
  erewrite bind_ok; last first.
  { eapply dict_append_ok; [|exact Hs']. simpl. apply lookup_insert_eq. }
  simpl. rewrite insert_insert_eq. fold m h' w2.
  assert (Hw2 : w_heap w2 !! loss = Some h') by (simpl; apply lookup_insert_eq).
  unfold next_best. destruct (PrimFloat.ltb m best) eqn:Hlt.
  - unfold bind at 1. unfold bind at 1.
    rewrite save_checkpoints_keywords_best.
    rewrite (save_checkpoints_body_ok _ _ _ _ _ _ _ _ Hw2). unfold ret at 1.
    unfold bind at 1. rewrite save_checkpoints_keywords_latest.
    erewrite save_checkpoints_body_ok by exact Hw2. done.
  - unfold bind at 1. unfold ret at 1.
    unfold bind at 1. rewrite save_checkpoints_keywords_latest.
    erewrite save_checkpoints_body_ok by exact Hw2. done.
Qed.

(** C8: in an epoch of [cross_validate] whose folds ran and reported the
    losses [fl], one per fold and in fold order, the value appended to
    [loss["mean"]] is [np.mean(fl)] and the value appended to [loss["std"]]
    is [np.std(fl)], the standard deviation with divisor K, both as numpy
    computes them for K values.  The appends come before the checkpoints
    are written and hold whatever becomes of those. *)
Theorem cross_validate_epoch_appends_mean_and_std
    single_fold_func dloader root_path prefix loss e best w fl w1 h ms ss :
  folds_run single_fold_func dloader w fl w1 ->
  w_heap w1 !! loss = Some h ->
  h !! "mean" = Some ms ->
  h !! "std" = Some ss ->
  let w' :=
    (cross_validate_epoch single_fold_func dloader (Z.of_nat (length dloader))
       root_path prefix loss e best w).2 in
  length fl = length dloader /\
  exists h',
    w_heap w' !! loss = Some h' /\
    h' !! "mean" = Some (ms ++ [np_mean fl]) /\
    h' !! "std" = Some (ss ++ [np_std fl]).
Proof.
  intros Hrun Hh Hm Hs w'. subst w'.
  rewrite (cross_validate_epoch_run _ _ root_path prefix _ e best
    _ _ _ _ _ _ Hrun Hh Hm Hs).
  split; [by eapply folds_run_length|].
  eexists. split; [simpl; apply lookup_insert_eq|].
  split; [by rewrite lookup_insert_ne, lookup_insert_eq | apply lookup_insert_eq].
Qed.

(** In [cross_validate] the best checkpoint is written exactly when the
    mean is strictly below the best loss so far, and carries the mean; the
    latest one is written in every epoch and carries the best loss after
    the epoch. *)
Lemma cross_validate_epoch_checkpoints
    single_fold_func dloader root_path prefix loss e best w fl w1 h ms ss :
  folds_run single_fold_func dloader w fl w1 ->
  w_heap w1 !! loss = Some h ->
  h !! "mean" = Some ms ->
  h !! "std" = Some ss ->
  let w' :=
    (cross_validate_epoch single_fold_func dloader (Z.of_nat (length dloader))
       root_path prefix loss e best w).2 in
  let m := np_mean fl in
  exists h' best_written,
    w_saved w' =
      (checkpoint_path root_path prefix "latest",
       epoch_record w1 h' e (next_best m best)) :: best_written ++ w_saved w1 /\
    (PrimFloat.ltb m best = true ->
       best_written =
         [(checkpoint_path root_path prefix "best", epoch_record w1 h' e m)]) /\
    (PrimFloat.ltb m best = false -> best_written = []).
Proof.
  intros Hrun Hh Hm Hs w' m. subst w'.
  rewrite (cross_validate_epoch_run _ _ root_path prefix _ e best
    _ _ _ _ _ _ Hrun Hh Hm Hs).
  fold m. simpl. eexists _, _. split; [reflexivity|].
  by destruct (PrimFloat.ltb m best).
Qed.

(** ** KFold *)

Lemma fold_sizes_length n k : (0 < k)%nat -> length (fold_sizes n k) = k.
Proof.
  intros Hk. unfold fold_sizes. rewrite length_app, !length_replicate.
  pose proof (Nat.mod_upper_bound n k). lia.
Qed.

Lemma fold_sizes_sum n k : (0 < k)%nat -> sum_list (fold_sizes n k) = n.
Proof.
  intros Hk. unfold fold_sizes.
  rewrite sum_list_with_app, !sum_list_replicate.
  pose proof (Nat.mod_upper_bound n k ltac:(lia)).
  pose proof (Nat.div_mod_eq n k). nia.
Qed.

Lemma test_slices_length indices sizes :
  length (test_slices indices sizes) = length sizes.
Proof. apply length_reshape. Qed.

(** The slices, put end to end, are the index list. *)
Lemma test_slices_concat indices sizes :
  sum_list sizes = length indices ->
  mjoin (test_slices indices sizes) = indices.
Proof. unfold test_slices. apply join_reshape. Qed.

(** The test part of a fold holds the elements of its slice. *)
Lemma fold_of_slice_test n slice :
  NoDup slice -> (forall i, i ∈ slice -> (i < n)%nat) ->
  (fold_of_slice n slice).2 ≡ₚ slice.
Proof.
  intros Hnd Hin. simpl. apply NoDup_Permutation; [|done|].
  - apply NoDup_filter, NoDup_seq.
  - intros i. rewrite list_elem_of_filter, elem_of_seq.
    split; [tauto|]. intros Hi. split; [done|]. specialize (Hin i Hi). lia.
Qed.

(** Train and test part of a fold share no index and together make up
    [0 .. n-1]. *)
Lemma fold_of_slice_split n slice i :
  (i < n)%nat ->
  (i ∈ (fold_of_slice n slice).1 /\ (i ∉ (fold_of_slice n slice).2)) \/
  ((i ∉ (fold_of_slice n slice).1) /\ i ∈ (fold_of_slice n slice).2).
Proof.
  intros Hi. simpl. rewrite !list_elem_of_filter, !elem_of_seq.
  destruct (decide (i ∈ slice)); [right | left]; split; try tauto.
  all: split; [done | lia].
Qed.

Lemma concat_Permutation_Forall2 (ls ks : list (list nat)) :
  Forall2 (≡ₚ) ls ks -> mjoin ls ≡ₚ mjoin ks.
Proof. induction 1 as [|l k ls ks Hlk _ IH]; simpl; [done | by rewrite Hlk, IH]. Qed.

(** Lists whose concatenation has no duplicates are pairwise disjoint. *)
Lemma NoDup_concat_disjoint (ls : list (list nat)) i j a b x :
  NoDup (mjoin ls) -> i <> j ->
  ls !! i = Some a -> ls !! j = Some b -> x ∈ a -> x ∉ b.
Proof.
  revert i j. induction ls as [|l ls IH]; intros i j Hnd Hij Hi Hj Ha Hb; [done|].
  simpl in Hnd. apply NoDup_app in Hnd as (Hl & Hsep & Hrest).
  destruct i as [|i], j as [|j]; simpl in *; simplify_eq.
  - apply (Hsep x Ha). apply list_elem_of_join. exists b. split; [done|].
    by eapply list_elem_of_lookup_2.
  - apply (Hsep x Hb). apply list_elem_of_join. exists a. split; [done|].
    by eapply list_elem_of_lookup_2.
  - eapply (IH i j); eauto.
Qed.

Lemma NoDup_concat_each (ls : list (list nat)) :
  NoDup (mjoin ls) -> Forall NoDup ls.
Proof.
  induction ls as [|l ls IH]; intros Hnd; [done|].
  simpl in Hnd. apply NoDup_app in Hnd as (Hl & _ & Hrest). auto.
Qed.

(** With a seed, the shuffle neither reads nor advances the global
    generator. *)
Lemma shuffle_indices_seeded seed indices w :
  shuffle_indices (Some seed) indices w
  = (Ok (rng_shuffle (rng_seed seed) indices).1, w).
Proof. done. Qed.

(** The split [cross_validate] asks for, when there are at least two folds
    and at least as many rows as folds. *)
Lemma KFold_split_seeded n_splits seed n_samples w :
  n_splits <= Z.of_nat n_samples ->
  KFold_split (mkKFold n_splits true (Some seed)) n_samples w
  = (Ok (fold_of_slice n_samples <$>
           test_slices (rng_shuffle (rng_seed seed) (seq 0 n_samples)).1
             (fold_sizes n_samples (Z.to_nat n_splits))), w).
Proof.
  intros Hle. unfold KFold_split. simpl.
  destruct (Z.ltb_spec (Z.of_nat n_samples) n_splits); [lia | done].
Qed.

Lemma cross_validate_loaders_ok dataset n_splits batch_size w :
  2 <= n_splits <= Z.of_nat (dataset_len dataset) ->
  cross_validate_loaders dataset n_splits batch_size w
  = (Ok (fold_loaders dataset batch_size <$>
           (fold_of_slice (dataset_len dataset) <$>
              test_slices
                (rng_shuffle (rng_seed 42) (seq 0 (dataset_len dataset))).1
                (fold_sizes (dataset_len dataset) (Z.to_nat n_splits)))), w).
Proof.
  intros [H2 Hn]. unfold cross_validate_loaders, KFold_init.
  destruct (Z.leb_spec n_splits 1); [lia|]. simpl.
  unfold bind at 1. unfold lift at 1.
  unfold bind at 1. by rewrite KFold_split_seeded.
Qed.

Lemma sampler_of_fold_loaders_val dataset batch_size fold :
  sampler_of "val" (fold_loaders dataset batch_size fold) = fold.2.
Proof. unfold sampler_of, fold_loaders. by rewrite lookup_insert_ne, lookup_insert_eq. Qed.

Lemma sampler_of_fold_loaders_train dataset batch_size fold :
  sampler_of "train" (fold_loaders dataset batch_size fold) = fold.1.
Proof. unfold sampler_of, fold_loaders. by rewrite lookup_insert_eq. Qed.

(** The validation index lists of the folds are, fold by fold, the test
    slices up to order. *)
Lemma validation_lists_slices n indices sizes :
  indices ≡ₚ seq 0 n -> sum_list sizes = n ->
  Forall2 (≡ₚ)
    ((fun fold : list nat * list nat => fold.2) <$>
       (fold_of_slice n <$> test_slices indices sizes))
    (test_slices indices sizes).
Proof.
  intros Hperm Hsum.
  assert (Hnd : NoDup indices) by (rewrite Hperm; apply NoDup_seq).
  assert (Hlt : Forall (fun i => (i < n)%nat) indices).
  { rewrite Hperm. apply Forall_forall. intros i Hi.
    apply elem_of_seq in Hi. lia. }
  assert (Hlen : length indices = n) by (by rewrite Hperm, length_seq).
  assert (Heach : Forall NoDup (test_slices indices sizes)).
  { apply NoDup_concat_each. rewrite test_slices_concat; [done | lia]. }
  assert (Hin : Forall (Forall (fun i => (i < n)%nat)) (test_slices indices sizes))
    by (by apply Forall_reshape).
  rewrite <- list_fmap_compose.
  apply Forall2_fmap_l, Forall_Forall2_diag.
  apply Forall_forall. intros slice Hslice.
  apply fold_of_slice_test.
  - by eapply (proj1 (Forall_forall _ _) Heach).
  - apply Forall_forall. by eapply (proj1 (Forall_forall _ _) Hin).
Qed.

(** C10: when [cross_validate] splits a dataset of n rows into K folds, for
    2 <= K <= n, there are K folds, every index of [0 .. n-1] is in the
    validation list of exactly one of them, once, and the validation lists
    of two different folds share no index. *)
Theorem cross_validate_validation_folds_partition dataset n_splits batch_size w :
  shuffle_permutes ->
  2 <= n_splits <= Z.of_nat (dataset_len dataset) ->
  exists dloader,
    cross_validate_loaders dataset n_splits batch_size w = (Ok dloader, w) /\
    length dloader = Z.to_nat n_splits /\
    mjoin (sampler_of "val" <$> dloader) ≡ₚ seq 0 (dataset_len dataset) /\
    (forall i j a b x,
       i <> j ->
       (sampler_of "val" <$> dloader) !! i = Some a ->
       (sampler_of "val" <$> dloader) !! j = Some b ->
       x ∈ a -> x ∉ b).
Proof.
  intros Hshuffle Hk. eexists. split; [by apply cross_validate_loaders_ok|].
  set (n := dataset_len dataset).
  set (indices := (rng_shuffle (rng_seed 42) (seq 0 n)).1).
  set (sizes := fold_sizes n (Z.to_nat n_splits)).
  assert (Hperm : indices ≡ₚ seq 0 n) by apply Hshuffle.
  assert (Hsum : sum_list sizes = n) by (apply fold_sizes_sum; lia).
  assert (Hvals :
    sampler_of "val" <$>
      (fold_loaders dataset batch_size <$>
         (fold_of_slice n <$> test_slices indices sizes))
    = (fun fold : list nat * list nat => fold.2) <$>
        (fold_of_slice n <$> test_slices indices sizes)).
  { rewrite <- (list_fmap_compose (fold_loaders dataset batch_size)).
    apply list_fmap_ext. intros _ fold _. apply sampler_of_fold_loaders_val. }
  assert (Hall :
    mjoin (sampler_of "val" <$>
      (fold_loaders dataset batch_size <$>
         (fold_of_slice n <$> test_slices indices sizes))) ≡ₚ seq 0 n).
  { rewrite Hvals.
    rewrite (concat_Permutation_Forall2 _ _
               (validation_lists_slices n indices sizes Hperm Hsum)).
    rewrite test_slices_concat; [done|].
    by rewrite Hsum, Hperm, length_seq. }
  split.
  { rewrite !length_fmap, test_slices_length. apply fold_sizes_length. lia. }
  split; [exact Hall|].
  intros i j a b x Hij Ha Hb. eapply NoDup_concat_disjoint; eauto.
  rewrite Hall. apply NoDup_seq.
Qed.

(** C7: the folds [cross_validate] builds do not depend on the state the
    call starts in, the global random generator included: the shuffle is
    seeded with 42 at every call.  Two runs over the same dataset and the
    same K build the same loaders, with the same index lists, or fail
    alike. *)
Theorem cross_validate_split_deterministic dataset n_splits batch_size w1 w2 :
  (cross_validate_loaders dataset n_splits batch_size w1).1
  = (cross_validate_loaders dataset n_splits batch_size w2).1.
Proof.
  unfold cross_validate_loaders, KFold_init.
  destruct (n_splits <=? 1); [done|]. simpl.
  unfold bind at 1 3. unfold lift. unfold bind. unfold KFold_split. simpl.
  by destruct (Z.of_nat (dataset_len dataset) <? n_splits).
Qed.

End Facts.

(** ** The stub: facts about it, and the code run on it *)

Lemma stub_zero_grad_keeps_optimizer : @zero_grad_keeps_optimizer Stub.torch.
Proof. intros o m. reflexivity. Qed.

Lemma stub_shuffle_permutes : @shuffle_permutes Stub.numpy_random.
Proof.
  intros g l. simpl. unfold rotate.
  by rewrite Permutation_app_comm, take_drop.
Qed.

(** The counting substitute reports 1, 2, 3, ... on the folds in turn. *)
Lemma stub_counting_folds_run dls (m o : nat) h s (g : nat) :
  folds_run Stub.single_fold_counting dls
    (@mkWorld Stub.torch Stub.numpy_random m o h s g)
    ((fun i => float_of_nat (S (m + i))) <$> seq 0 (length dls))
    (@mkWorld Stub.torch Stub.numpy_random (m + length dls)%nat o h s g).
Proof.
  revert m. induction dls as [|dl dls IH]; intros m.
  - simpl. rewrite Nat.add_0_r. constructor.
  - cbn [length seq fmap list_fmap]. rewrite Nat.add_0_r.
    econstructor; [reflexivity | reflexivity |].
    rewrite <- seq_shift, <- list_fmap_compose.
    replace (m + S (length dls))%nat with (S m + length dls)%nat by lia.
    erewrite list_fmap_ext; [apply (IH (S m))|].
    intros _ i _. simpl. f_equal. lia.
Qed.

(** C1: on the feed of the example, two batches of 4 and 6 examples with
    losses 2.0 and 3.0, [train_single_fold] returns 13.0 for each phase:
    the sum 26.0 divided by [len(loader)], the number of batches, which is
    2, where the claim has the number of examples, 10, and the mean 2.6. *)
Theorem train_single_fold_divides_by_batch_count :
  (train_single_fold Stub.feeds_4_6 Stub.world0).1 = Ok [13%float; 13%float] /\
  dset_sizes Stub.feeds_4_6 !! "val" = Some 2%nat /\
  PrimFloat.div (2 * 4 + 3 * 6) 10 = 2.6%float /\
  13%float <> 2.6%float.
Proof.
  split; [vm_compute; reflexivity|].
  split; [vm_compute; reflexivity|].
  split; [vm_compute; reflexivity|].
  intros Heq. apply (f_equal (fun x => PrimFloat.ltb x 5)) in Heq.
  vm_compute in Heq. discriminate.
Qed.

(** C2 (as the spec lists the names): the record [save_checkpoints] writes
    for a call that names every argument has the fields [model_state_dict]
    and [optimizer_state_dict], not [model_state] and [optimizer_state]. *)
Lemma save_checkpoints_fields_not_as_listed :
  exists path record,
    w_saved
      (save_checkpoints []
         [("training_model", VModel); ("optimizer", VOptim);
          ("model_name", VStr "Net"); ("root_path", VStr ".");
          ("e", VInt 0); ("loss", VDict cross_validate_default_loss);
          ("best_loss", VFloat 1); ("logger", VLogger)] Stub.world0).2
    = [(path, record)] /\
    field_names record <> spec_field_names.
Proof.
  eexists _, _. split; [reflexivity|]. discriminate.
Qed.

(** C3 on the stub: the training pass takes two optimizer steps, the
    validation pass after it none. *)
Lemma validation_pass_keeps_optimizer_witness :
  @zero_grad_keeps_optimizer Stub.torch /\
  let sizes := dset_sizes Stub.feeds_4_6 in
  let w1 := (run_phase Stub.feeds_4_6 sizes "train" Stub.world0).2 in
  w_optim w1 = 2%nat /\
  w_optim (run_phase Stub.feeds_4_6 sizes "val" w1).2 = w_optim w1.
Proof.
  split; [intros o m; reflexivity|].
  split; [vm_compute; reflexivity|].
  apply (@validation_pass_keeps_optimizer Stub.torch Stub.numpy_random).
  intros o m. reflexivity.
Defined.

(** C4: two calls of [cross_validate] in a row that leave [loss] out append
    to one and the same dict, the one built with the [def]: the second call
    starts with the first call's entry in it and adds its own.  The same
    holds for [train_model], whose default dict has an entry after a first
    call. *)
Theorem default_history_shared_between_calls :
  let call :=
    cross_validate (Stub.rows 4) (Stub.single_fold_fixed 1) 2 1 1 0 "." None
      None float_inf in
  let w1 := (call Stub.world0).2 in
  let w2 := (call w1).2 in
  history cross_validate_default_loss "mean" Stub.world0 = Some [] /\
  (call Stub.world0).1 = Ok tt /\
  history cross_validate_default_loss "mean" w1 = Some [1%float] /\
  (call w1).1 = Ok tt /\
  history cross_validate_default_loss "mean" w2 = Some [1%float; 1%float] /\
  history train_model_default_loss "val"
    (train_model Stub.feeds_4_6 "." None 1 0 None float_inf Stub.world0).2
  = Some [13%float].
Proof. vm_compute. repeat split; reflexivity. Qed.

(** C5: in [train_model] the validation loss 13.0 of the first epoch is
    below the best loss so far, infinity, and no best checkpoint is
    written: the call of [save_checkpoints] raises a [TypeError] while its
    arguments are bound, and [train_model] ends with it.  [cross_validate],
    whose calls name every argument, writes the best checkpoint in the same
    situation, with the new loss as its [best_loss]. *)
Theorem train_model_writes_no_best_checkpoint :
  let r := train_model Stub.feeds_4_6 "." None 1 0 None float_inf Stub.world0 in
  let r' :=
    cross_validate (Stub.rows 4) (Stub.single_fold_fixed 13) 2 1 1 0 "." None
      None float_inf Stub.world0 in
  history train_model_default_loss "val" r.2 = Some [13%float] /\
  PrimFloat.ltb 13 float_inf = true /\
  r.1 = Raise Stub.logger_twice /\
  w_saved r.2 = [] /\
  r'.1 = Ok tt /\
  (fun pc => (pc.1, last pc.2)) <$> w_saved r'.2
  = [("./Net_latest.ckpt", Some ("best_loss", SFloat 13%float));
     ("./Net_best.ckpt", Some ("best_loss", SFloat 13%float))].
Proof. vm_compute. repeat split; reflexivity. Qed.

(** C9: in [train_model], with the best loss so far at 1.0 and a
    validation loss of 13.0, no latest checkpoint is written: the call of
    [save_checkpoints] at the end of the epoch raises a [TypeError] while
    its arguments are bound.  [cross_validate] writes the latest checkpoint
    in the same situation, with the epoch and the best loss. *)
Theorem train_model_writes_no_latest_checkpoint :
  let r := train_model Stub.feeds_4_6 "." None 1 0 None 1 Stub.world0 in
  let r' :=
    cross_validate (Stub.rows 4) (Stub.single_fold_fixed 13) 2 1 1 7 "." None
      None 1 Stub.world0 in
  PrimFloat.ltb 13 1 = false /\
  r.1 = Raise Stub.logger_twice /\
  w_saved r.2 = [] /\
  r'.1 = Ok tt /\
  (fun pc => (pc.1, head pc.2, last pc.2)) <$> w_saved r'.2
  = [("./Net_latest.ckpt", Some ("epoch", SInt 7),
      Some ("best_loss", SFloat 1%float))].
Proof. vm_compute. repeat split; reflexivity. Qed.

(** C6: with one epoch per call, the first call of [train_model] appends
    the losses of epoch 0 and then raises; a caller that goes on and calls
    again for epoch 1, with the same history dict and the best loss
    reached, ends with two entries in the history.  The single call for two
    epochs raises in epoch 0 as well and ends with one. *)
Theorem train_model_resume_differs :
  let first :=
    train_model Stub.feeds_4_6 "." None 1 0 (Some Stub.caller_history) float_inf in
  let second :=
    train_model Stub.feeds_4_6 "." None 1 1 (Some Stub.caller_history) 13 in
  let both :=
    train_model Stub.feeds_4_6 "." None 2 0 (Some Stub.caller_history) float_inf in
  (first Stub.world_with_history).1 = Raise Stub.logger_twice /\
  history Stub.caller_history "val"
    (bind (try_ first) (fun _ => try_ second) Stub.world_with_history).2
  = Some [13%float; 13%float] /\
  history Stub.caller_history "val" (try_ both Stub.world_with_history).2
  = Some [13%float].
Proof. vm_compute. repeat split; reflexivity. Qed.

(** The example of the spec in [cross_validate]: with the best loss at 1.0,
    a mean of 1.0 writes the latest checkpoint only, a mean of 0.99 writes
    the best one too, with 0.99 as its [best_loss]. *)
Example cross_validate_best_checkpoint_example :
  let run v :=
    (cross_validate (Stub.rows 4) (Stub.single_fold_fixed v) 2 1 1 0 "." None
       None 1 Stub.world0).2 in
  (fun pc => (pc.1, last pc.2)) <$> w_saved (run 1%float)
  = [("./Net_latest.ckpt", Some ("best_loss", SFloat 1%float))] /\
  (fun pc => (pc.1, last pc.2)) <$> w_saved (run 0.99%float)
  = [("./Net_latest.ckpt", Some ("best_loss", SFloat 0.99%float));
     ("./Net_best.ckpt", Some ("best_loss", SFloat 0.99%float))].
Proof. vm_compute. split; reflexivity. Qed.

(** Without a seed the split would follow the global generator: on the
    stub, two states of it give different folds. *)
Example unseeded_split_follows_global_generator :
  (KFold_split (mkKFold 2 true None) 4 Stub.world0).1
  <> (KFold_split (mkKFold 2 true None) 4 (set_np_rng 1%nat Stub.world0)).1.
Proof. vm_compute. discriminate. Qed.

(** C8 on the stub: five folds whose runs report the losses 1, 2, 3, 4, 5
    append the mean 3.0 and the standard deviation sqrt(2), which is what
    dividing by K = 5 gives. *)
Lemma cross_validate_epoch_appends_mean_and_std_witness :
  let w' :=
    (cross_validate_epoch Stub.single_fold_counting (Stub.loaders 5 5) 5 "."
       "Net" cross_validate_default_loss 0 float_inf Stub.world0).2 in
  length (Stub.loaders 5 5) = 5%nat /\
  exists h',
    w_heap w' !! cross_validate_default_loss = Some h' /\
    h' !! "mean" = Some [3%float] /\
    h' !! "std" = Some [PrimFloat.sqrt 2].
Proof.
  split; [vm_compute; reflexivity|].
  pose proof (stub_counting_folds_run (Stub.loaders 5 5) 0 0 module_heap [] 0)
    as Hrun.
  destruct (@cross_validate_epoch_appends_mean_and_std
              Stub.torch Stub.numpy_random
              Stub.single_fold_counting (Stub.loaders 5 5) "." "Net"
              cross_validate_default_loss 0 float_inf _ _ _
              (<["mean" := []]> (<["std" := []]> ∅)) [] [] Hrun
              eq_refl eq_refl eq_refl) as (_ & Hh).
  exact Hh.
Defined.

(** C10 on the stub: seven rows in three folds. *)
Lemma cross_validate_validation_folds_partition_witness :
  @shuffle_permutes Stub.numpy_random /\
  2 <= 3 <= Z.of_nat (dataset_len (Stub.rows 7)) /\
  exists dloader,
    cross_validate_loaders (Stub.rows 7) 3 1 Stub.world0 = (Ok dloader, Stub.world0) /\
    length dloader = 3%nat /\
    mjoin (sampler_of "val" <$> dloader) ≡ₚ seq 0 7.
Proof.
  assert (Hs : @shuffle_permutes Stub.numpy_random).
  { intros g l. simpl. unfold rotate. by rewrite Permutation_app_comm, take_drop. }
  assert (Hk : 2 <= 3 <= Z.of_nat (dataset_len (Stub.rows 7))) by (vm_compute; split; discriminate).
  split; [exact Hs|]. split; [exact Hk|].
  destruct (@cross_validate_validation_folds_partition
              Stub.torch Stub.numpy_random (Stub.rows 7) 3 1
              Stub.world0 Hs Hk) as (dloader & Hrun & Hlen & Hperm & _).
  exists dloader. split; [exact Hrun|]. split; [exact Hlen | exact Hperm].
Defined.

(** * More about the code *)

Section MoreFacts.
Context `{T : Torch} `{NR : NumpyRandom}.

(** ** numpy's sum *)

(** The fuel plays no part once it covers the length of the array. *)
Lemma pairwise_sum_fuel fuel1 :
  forall fuel2 (a : list float),
    (length a <= fuel1)%nat -> (length a <= fuel2)%nat ->
    pairwise_sum fuel1 a = pairwise_sum fuel2 a.
Proof.
  induction fuel1 as [|fuel1 IH]; intros fuel2 a H1 H2.
  - destruct a; [|simpl in H1; lia]. by destruct fuel2.
  - destruct fuel2 as [|fuel2].
    { destruct a; [done | simpl in H2; lia]. }
    cbn [pairwise_sum].
    destruct (length a <? 8)%nat eqn:H8; [done|].
    destruct (length a <=? 128)%nat eqn:H128; [done|].
    apply Nat.leb_gt in H128.
    pose proof (Nat.mod_upper_bound (length a / 2) 8 ltac:(lia)) as Hmod.
    pose proof (Nat.div_mod_eq (length a) 2) as Hhalf.
    pose proof (Nat.mod_upper_bound (length a) 2 ltac:(lia)) as Hrem.
    f_equal; apply IH; rewrite ?length_take, ?length_drop; lia.
Qed.

(** Ten values of 0.1 have the mean 0.1 and the deviation 0.0, eight
    values of 0.7 the mean 0.7, where adding from left to right would give
    0.09999999999999999 and 0.7000000000000001. *)
Example np_mean_of_eight_or_more :
  np_mean (replicate 10 0.1%float) = 0.1%float /\
  np_std (replicate 10 0.1%float) = 0%float /\
  np_mean (replicate 8 0.7%float) = 0.7%float /\
  PrimFloat.div (foldl PrimFloat.add 0%float (replicate 10 0.1%float)) 10
  = 0.09999999999999999%float /\
  PrimFloat.div (foldl PrimFloat.add 0%float (replicate 8 0.7%float)) 8
  = 0.7000000000000001%float.
Proof. vm_compute. repeat split; reflexivity. Qed.

(** ** train_single_fold *)

Lemma run_batch_np_rng training b acc w :
  w_np_rng (run_batch training b acc w).2 = w_np_rng w.
Proof.
  unfold run_batch. destruct (zero_grad _ _) as [o1 m1].
  destruct (forward_loss _ _ _) as [m2 l].
  by destruct (if training then _ else _) as [o3 m3].
Qed.

(** What a phase does, case by case. *)
Lemma run_phase_cases dloader dataset w :
  dataset ∈ ["train"; "val"] ->
  let training := String.eqb dataset "train" in
  let w0 :=
    set_model ((if training then model_train else model_eval) (w_model w)) w in
  match dloader !! dataset with
  | None => run_phase dloader (dset_sizes dloader) dataset w
            = (Raise (KeyError dataset), w0)
  | Some dl =>
      exists s w1,
        for_each (loader_batches dl) (run_batch training) 0%float w0 = (Ok s, w1) /\
        run_phase dloader (dset_sizes dloader) dataset w =
          if decide (loader_batches dl = []) then (Raise ZeroDivisionError, w1)
          else (Ok (PrimFloat.div s (float_of_nat (length (loader_batches dl)))), w1)
  end.
Proof.
  intros Hin training w0. unfold run_phase. fold training.
  unfold bind at 1. unfold modify at 1. fold w0.
  destruct (dloader !! dataset) as [dl|] eqn:Hdl; [|done].
  destruct (run_batches_ok training (loader_batches dl) 0%float w0)
    as (s & w1 & Hloop).
  exists s, w1. split; [done|].
  unfold bind at 1. rewrite Hloop, (dset_sizes_lookup _ _ _ Hin Hdl).
  destruct (loader_batches dl) as [|b bs]; [done|].
  by rewrite decide_False.
Qed.

(** X1: whenever [train_single_fold] returns, it returns two losses:
    the first is the sum accumulated over the batches of the loader under
    ["train"], in training mode, divided by the number of those batches;
    the second and last is the sum accumulated afterwards over the batches
    of the loader under ["val"], in evaluation mode and with the model the
    training pass left, divided by the number of those batches.  So
    [floss[0]], [floss[1]] and [floss[-1]] in the callers never raise, and
    [floss[-1]] is the validation loss. *)
Theorem train_single_fold_returns_two dloader w floss w' :
  train_single_fold dloader w = (Ok floss, w') ->
  exists dl_train s_train w1 dl_val s_val,
    dloader !! "train" = Some dl_train /\
    for_each (loader_batches dl_train) (run_batch true) 0%float
      (set_model (model_train (w_model w)) w) = (Ok s_train, w1) /\
    dloader !! "val" = Some dl_val /\
    for_each (loader_batches dl_val) (run_batch false) 0%float
      (set_model (model_eval (w_model w1)) w1) = (Ok s_val, w') /\
    let train_mean :=
      PrimFloat.div s_train (float_of_nat (length (loader_batches dl_train))) in
    let val_mean :=
      PrimFloat.div s_val (float_of_nat (length (loader_batches dl_val))) in
    floss = [train_mean; val_mean] /\
    py_index floss 0 = Ok train_mean /\
    py_index floss 1 = Ok val_mean /\
    py_last floss = Ok val_mean.
Proof.
  unfold train_single_fold. cbn [for_each].
  pose proof (run_phase_cases dloader "train" w ltac:(set_solver)) as Ht.
  unfold bind at 1. unfold bind at 1.
  destruct (dloader !! "train") as [dlt|]; [|by rewrite Ht].
  destruct Ht as (st & w1 & Hloopt & Hrun). rewrite Hrun.
  destruct (decide (loader_batches dlt = [])) as [|Hnt]; [done|].
  unfold ret at 1.
  pose proof (run_phase_cases dloader "val" w1 ltac:(set_solver)) as Hv.
  unfold bind at 1. unfold bind at 1.
  destruct (dloader !! "val") as [dlv|]; [|by rewrite Hv].
  destruct Hv as (sv & w2 & Hloopv & Hrunv). rewrite Hrunv.
  destruct (decide (loader_batches dlv = [])) as [|Hnv]; [done|].
  unfold ret. intros [= <- <-].
  exists dlt, st, w1, dlv, sv. by repeat split.
Qed.

(** X2: [train_single_fold] trains and evaluates and does nothing else: it
    leaves every history dict, the checkpoints written so far and numpy's
    global generator as they are, whether it returns or raises. *)
Theorem train_single_fold_frame dloader w :
  let w' := (train_single_fold dloader w).2 in
  w_heap w' = w_heap w /\ w_saved w' = w_saved w /\ w_np_rng w' = w_np_rng w.
Proof.
  simpl. split; [|split].
  - apply (train_single_fold_keeps w_heap); [done | apply run_batch_heap].
  - apply (train_single_fold_keeps w_saved); [done | apply run_batch_saved].
  - apply (train_single_fold_keeps w_np_rng); [done | apply run_batch_np_rng].
Qed.

(** X3: without a loader under ["train"], [train_single_fold] raises
    [KeyError('train')]; by then the model has been put in training mode
    and nothing else has happened. *)
Theorem train_single_fold_missing_train dloader w :
  dloader !! "train" = None ->
  train_single_fold dloader w
  = (Raise (KeyError "train"), set_model (model_train (w_model w)) w).
Proof.
  intros Hnone. unfold train_single_fold. cbn [for_each].
  pose proof (run_phase_cases dloader "train" w ltac:(set_solver)) as Hc.
  rewrite Hnone in Hc. simpl in Hc.
  unfold bind at 1. unfold bind at 1. by rewrite Hc.
Qed.

(** X4: a training loader that yields no batch makes [train_single_fold]
    raise [ZeroDivisionError]: the sum, still the int 0, is divided by
    [len(loader)], which is 0.  No batch has been processed and the
    validation pass is not started. *)
Theorem train_single_fold_empty_train dloader dl w :
  dloader !! "train" = Some dl ->
  loader_batches dl = [] ->
  train_single_fold dloader w
  = (Raise ZeroDivisionError, set_model (model_train (w_model w)) w).
Proof.
  intros Hdl Hnil. unfold train_single_fold. cbn [for_each].
  pose proof (run_phase_cases dloader "train" w ltac:(set_solver)) as Hc.
  rewrite Hdl in Hc. destruct Hc as (s & w1 & Hloop & Hrun).
  rewrite Hnil in Hloop, Hrun. simpl in Hloop. injection Hloop as <- <-.
  unfold bind at 1. unfold bind at 1. by rewrite Hrun.
Qed.

(** X5: when the training loader is in order and the validation loader is
    missing or yields no batch, the training pass runs in full and
    [train_single_fold] then raises, [KeyError('val')] or
    [ZeroDivisionError]: the training loss computed is lost. *)
Theorem train_single_fold_bad_val dloader dl w :
  dloader !! "train" = Some dl ->
  loader_batches dl <> [] ->
  (forall dlv, dloader !! "val" = Some dlv -> loader_batches dlv = []) ->
  exists s w1,
    run_phase dloader (dset_sizes dloader) "train" w
      = (Ok (PrimFloat.div s (float_of_nat (length (loader_batches dl)))), w1) /\
    (train_single_fold dloader w).1
      = Raise (match dloader !! "val" with
               | None => KeyError "val"
               | Some _ => ZeroDivisionError
               end).
Proof.
  intros Hdl Hne Hval.
  pose proof (run_phase_cases dloader "train" w ltac:(set_solver)) as Hc.
  rewrite Hdl in Hc. destruct Hc as (s & w1 & _ & Hrun).
  rewrite decide_False in Hrun by done.
  exists s, w1. split; [done|].
  unfold train_single_fold. cbn [for_each].
  unfold bind at 1. unfold bind at 1. rewrite Hrun. unfold ret at 1.
  pose proof (run_phase_cases dloader "val" w1 ltac:(set_solver)) as Hc.
  unfold bind at 1. unfold bind at 1.
  destruct (dloader !! "val") as [dlv|] eqn:Hv.
  - destruct Hc as (sv & w2 & _ & Hrunv).
    rewrite (Hval dlv eq_refl) in Hrunv. simpl in Hrunv. by rewrite Hrunv.
  - by rewrite Hc.
Qed.

(** X6: [train_single_fold] can return a result only when there is a
    loader under ["train"] and one under ["val"] and each yields at least
    one batch: in every other case it raises. *)
Theorem train_single_fold_ok_only_if dloader w :
  is_ok (train_single_fold dloader w).1 = true ->
  exists dl_train dl_val,
    dloader !! "train" = Some dl_train /\
    dloader !! "val" = Some dl_val /\
    loader_batches dl_train <> [] /\
    loader_batches dl_val <> [].
Proof.
  unfold train_single_fold. cbn [for_each].
  pose proof (run_phase_cases dloader "train" w ltac:(set_solver)) as Ht.
  unfold bind at 1. unfold bind at 1.
  destruct (dloader !! "train") as [dlt|]; [|by rewrite Ht].
  destruct Ht as (st & w1 & _ & Hrun). rewrite Hrun.
  destruct (decide (loader_batches dlt = [])) as [|Hnt]; [done|].
  unfold ret at 1.
  pose proof (run_phase_cases dloader "val" w1 ltac:(set_solver)) as Hv.
  unfold bind at 1. unfold bind at 1.
  destruct (dloader !! "val") as [dlv|]; [|by rewrite Hv].
  destruct Hv as (sv & w2 & _ & Hrunv). rewrite Hrunv.
  destruct (decide (loader_batches dlv = [])) as [|Hnv]; [done|].
  intros _. by exists dlt, dlv.
Qed.

(** X7: only the loaders under ["train"] and ["val"] count: whatever else
    the dict holds, [train_single_fold] does the same and returns the
    same. *)
Theorem train_single_fold_other_keys dloader w :
  train_single_fold dloader w = train_single_fold (train_val_only dloader) w.
Proof.
  assert (Hlook : forall key, key ∈ ["train"; "val"] ->
            train_val_only dloader !! key = dloader !! key).
  { intros key Hkey. unfold train_val_only.
    destruct (dloader !! key) as [dl|] eqn:Hdl.
    - by apply map_lookup_filter_Some_2.
    - apply map_lookup_filter_None. left. done. }
  assert (Hsizes : dset_sizes (train_val_only dloader) = dset_sizes dloader).
  { unfold dset_sizes, train_val_only. f_equal.
    apply map_eq. intros key.
    destruct (decide (key ∈ ["train"; "val"])) as [Hkey|Hkey].
    - destruct (filter _ dloader !! key) as [dl|] eqn:Hdl.
      + by apply map_lookup_filter_Some_2.
      + apply map_lookup_filter_None. by left.
    - rewrite !(proj2 (map_lookup_filter_None _ _ _)); [done | |];
        right; intros dl _ ?; done. }
  unfold train_single_fold. rewrite Hsizes.
  assert (Hphase : forall dataset w0, dataset ∈ ["train"; "val"] ->
            run_phase dloader (dset_sizes dloader) dataset w0
            = run_phase (train_val_only dloader) (dset_sizes dloader) dataset w0).
  { intros dataset w0 Hkey. unfold run_phase. by rewrite (Hlook dataset Hkey). }
  cbn [for_each]. unfold bind.
  rewrite <- (Hphase "train") by set_solver.
  destruct (run_phase dloader _ "train" w) as [[t|?] w1]; [|done].
  simpl. rewrite <- (Hphase "val") by set_solver. done.
Qed.

(** ** save_checkpoints *)

(** X8: [save_checkpoints] reads the training state and does not change
    it: after a call, whatever its arguments and whether it returns or
    raises, the model, the optimizer, every history dict and numpy's
    generator are as before. *)
Theorem save_checkpoints_frame args kwargs w :
  let w' := (save_checkpoints args kwargs w).2 in
  w_model w' = w_model w /\
  w_optim w' = w_optim w /\
  w_heap w' = w_heap w /\
  w_np_rng w' = w_np_rng w.
Proof.
  simpl. unfold save_checkpoints, bind, lift.
  destruct (bind_args _ _ _ _) as [env|err]; [|done].
  repeat (case_match; try done).
  all: unfold save_checkpoints_body in *;
    destruct (w_heap w !! _) as [h|]; simplify_eq; done.
Qed.

Lemma list_ascii_of_string_append a b :
  list_ascii_of_string (String.append a b)
  = list_ascii_of_string a ++ list_ascii_of_string b.
Proof. induction a as [|c a IH]; simpl; [done | by rewrite IH]. Qed.

Lemma list_ascii_of_string_inj a b :
  list_ascii_of_string a = list_ascii_of_string b -> a = b.
Proof.
  intros Heq. rewrite <- (string_of_list_ascii_of_string a),
    <- (string_of_list_ascii_of_string b). by rewrite Heq.
Qed.

Lemma string_append_inv_head a x y :
  String.append a x = String.append a y -> x = y.
Proof.
  intros Heq. apply list_ascii_of_string_inj.
  apply (f_equal list_ascii_of_string) in Heq.
  rewrite !list_ascii_of_string_append in Heq. by apply app_inv_head in Heq.
Qed.

Lemma string_append_inv_tail x y a :
  String.append x a = String.append y a -> x = y.
Proof.
  intros Heq. apply list_ascii_of_string_inj.
  apply (f_equal list_ascii_of_string) in Heq.
  rewrite !list_ascii_of_string_append in Heq. by apply app_inv_tail in Heq.
Qed.

(** Whether the file name starts with a slash is decided by the model
    name, not by the suffix. *)
Lemma starts_with_slash_file_name name suffix1 suffix2 :
  starts_with_slash
    (String.append name (String.append "_" (String.append suffix1 ".ckpt")))
  = starts_with_slash
      (String.append name (String.append "_" (String.append suffix2 ".ckpt"))).
Proof. by destruct name. Qed.

(** For one root path and one model name, the save path tells the
    suffix. *)
Lemma checkpoint_path_inj root_path name suffix1 suffix2 :
  checkpoint_path root_path name suffix1 = checkpoint_path root_path name suffix2 ->
  suffix1 = suffix2.
Proof.
  unfold checkpoint_path, path_join.
  rewrite (starts_with_slash_file_name name suffix1 suffix2).
  destruct (starts_with_slash _).
  - intros Heq. apply string_append_inv_head in Heq.
    apply string_append_inv_head in Heq. by apply string_append_inv_tail in Heq.
  - destruct (_ || _)%bool; intros Heq; repeat apply string_append_inv_head in Heq;
      by apply string_append_inv_tail in Heq.
Qed.

(** X9: two saves for the same root path and model name with different
    suffixes go to different files; so the best checkpoint and the latest
    one never overwrite each other. *)
Theorem save_checkpoints_suffixes_apart
    root_path model_name loss e1 e2 best1 best2 suffix1 suffix2 w h :
  w_heap w !! loss = Some h ->
  suffix1 <> suffix2 ->
  let w1 :=
    (save_checkpoints_body root_path model_name loss e1 best1 suffix1 w).2 in
  let w2 :=
    (save_checkpoints_body root_path model_name loss e2 best2 suffix2 w1).2 in
  exists path1 record1 path2 record2,
    w_saved w2 = (path2, record2) :: (path1, record1) :: w_saved w /\
    path1 <> path2.
Proof.
  intros Hh Hne w1 w2. subst w1 w2.
  rewrite (save_checkpoints_body_ok _ _ _ _ _ _ _ _ Hh). simpl.
  erewrite save_checkpoints_body_ok by (simpl; exact Hh). simpl.
  eexists _, _, _, _. split; [reflexivity|].
  intros Heq. apply Hne. by eapply checkpoint_path_inj.
Qed.

(** ** cross_validate: the folds *)

(** The pieces [reshape] cuts have the sizes asked for, when the list is
    long enough. *)
Lemma reshape_lengths (sizes : list nat) (l : list nat) :
  (sum_list sizes <= length l)%nat ->
  Forall2 (fun piece size => length piece = size) (reshape sizes l) sizes.
Proof.
  revert l. induction sizes as [|size sizes IH]; intros l Hlen; simpl in *.
  - constructor.
  - constructor.
    + rewrite length_take. lia.
    + apply IH. rewrite length_drop. lia.
Qed.

Lemma fold_sizes_each n k :
  Forall (fun size => size = (n / k)%nat \/ size = (n / k + 1)%nat) (fold_sizes n k).
Proof.
  unfold fold_sizes. apply Forall_app. split; apply Forall_replicate; auto.
Qed.

(** Train and test part of a fold make up [0 .. n-1] and share no
    index. *)
Lemma fold_of_slice_complement n slice :
  (fold_of_slice n slice).1 ++ (fold_of_slice n slice).2 ≡ₚ seq 0 n /\
  (forall i, i ∈ (fold_of_slice n slice).1 -> i ∉ (fold_of_slice n slice).2).
Proof.
  simpl. split.
  - rewrite Permutation_app_comm. apply filter_app_complement.
  - intros i. rewrite !list_elem_of_filter. tauto.
Qed.

(** X10: in every fold [cross_validate] builds, the index list of the
    training sampler and that of the validation sampler share no index and
    together hold each index of [0 .. n-1] once: a row is trained on or
    validated on, never both and never neither. *)
Theorem cross_validate_fold_train_val_complement dataset n_splits batch_size w :
  2 <= n_splits <= Z.of_nat (dataset_len dataset) ->
  exists dloader,
    cross_validate_loaders dataset n_splits batch_size w = (Ok dloader, w) /\
    Forall (fun d =>
              sampler_of "train" d ++ sampler_of "val" d
                ≡ₚ seq 0 (dataset_len dataset) /\
              (forall i, i ∈ sampler_of "train" d -> i ∉ sampler_of "val" d))
           dloader.
Proof.
  intros Hk. eexists. split; [by apply cross_validate_loaders_ok|].
  rewrite <- list_fmap_compose. apply Forall_fmap, Forall_forall.
  intros slice _. simpl.
  rewrite sampler_of_fold_loaders_train, sampler_of_fold_loaders_val.
  apply fold_of_slice_complement.
Qed.

(** X11: the folds are balanced: with n rows and K folds, 2 <= K <= n,
    every validation list has [n // K] or [n // K + 1] indices, so at
    least one, and the training list of the same fold has the rest. *)
Theorem cross_validate_fold_sizes dataset n_splits batch_size w :
  shuffle_permutes ->
  2 <= n_splits <= Z.of_nat (dataset_len dataset) ->
  let n := dataset_len dataset in
  let k := Z.to_nat n_splits in
  exists dloader,
    cross_validate_loaders dataset n_splits batch_size w = (Ok dloader, w) /\
    Forall (fun d =>
              let v := length (sampler_of "val" d) in
              (v = (n / k)%nat \/ v = (n / k + 1)%nat) /\
              (1 <= v)%nat /\
              length (sampler_of "train" d) = (n - v)%nat)
           dloader.
Proof.
  intros Hshuffle Hk n k. eexists. split; [by apply cross_validate_loaders_ok|].
  fold n k.
  set (indices := (rng_shuffle (rng_seed 42) (seq 0 n)).1).
  assert (Hperm : indices ≡ₚ seq 0 n) by apply Hshuffle.
  assert (Hsum : sum_list (fold_sizes n k) = n) by (apply fold_sizes_sum; lia).
  assert (Hlen : length indices = n) by (by rewrite Hperm, length_seq).
  assert (Hnd : NoDup indices) by (rewrite Hperm; apply NoDup_seq).
  assert (Hlt : Forall (fun i => (i < n)%nat) indices).
  { rewrite Hperm. apply Forall_forall. intros i Hi.
    apply elem_of_seq in Hi. lia. }
  assert (Hsizes : Forall (fun piece : list nat =>
            length piece = (n / k)%nat \/ length piece = (n / k + 1)%nat)
            (test_slices indices (fold_sizes n k))).
  { eapply Forall2_Forall_l; [apply reshape_lengths; lia|].
    eapply Forall_impl; [apply fold_sizes_each|].
    intros size Hsize piece ->. exact Hsize. }
  assert (Heach : Forall NoDup (test_slices indices (fold_sizes n k))).
  { apply NoDup_concat_each. rewrite test_slices_concat; [done | lia]. }
  assert (Hin : Forall (Forall (fun i => (i < n)%nat))
                  (test_slices indices (fold_sizes n k)))
    by (by apply Forall_reshape).
  assert (Hdiv : (1 <= n / k)%nat).
  { apply Nat.div_str_pos. lia. }
  rewrite <- list_fmap_compose. apply Forall_fmap.
  apply Forall_forall. intros slice Hslice. simpl.
  rewrite sampler_of_fold_loaders_train, sampler_of_fold_loaders_val.
  assert (Hv : length (fold_of_slice n slice).2 = length slice).
  { apply Permutation_length, fold_of_slice_test.
    - by eapply (proj1 (Forall_forall _ _) Heach).
    - apply Forall_forall. by eapply (proj1 (Forall_forall _ _) Hin). }
  pose proof (proj1 (fold_of_slice_complement n slice)) as Hall.
  apply Permutation_length in Hall. rewrite length_app, length_seq in Hall.
  pose proof (proj1 (Forall_forall _ _) Hsizes slice Hslice) as Hsz.
  simpl in Hsz. rewrite Hv. split; [exact Hsz|]. split; lia.
Qed.

(** ** cross_validate: the epochs *)

Lemma dict_append_cases l key x w :
  dict_append l key x w =
  match w_heap w !! l with
  | None => (Raise (TypeError "not a dict"), w)
  | Some d =>
      match d !! key with
      | None => (Raise (KeyError key), w)
      | Some v =>
          (Ok tt, set_heap (<[l := <[key := v ++ [x]]> d]> (w_heap w)) w)
      end
  end.
Proof.
  destruct (w_heap w !! l) as [d|] eqn:Hl.
  - destruct (d !! key) as [v|] eqn:Hk.
    + by apply dict_append_ok.
    + unfold dict_append, bind, dict_get. by rewrite Hl, Hk.
  - unfold dict_append, bind, dict_get. by rewrite Hl.
Qed.

(** One epoch of [cross_validate], whatever happens in it. *)
Lemma cross_validate_epoch_cases single_fold_func dloader n_splits root_path
    prefix loss e best w :
  cross_validate_epoch single_fold_func dloader n_splits root_path prefix loss
    e best w =
  match cross_validate_folds single_fold_func dloader n_splits w with
  | (Raise err, w1) => (Raise err, w1)
  | (Ok fl, w1) =>
      match w_heap w1 !! loss with
      | None => (Raise (TypeError "not a dict"), w1)
      | Some h =>
          match h !! "mean" with
          | None => (Raise (KeyError "mean"), w1)
          | Some ms =>
              let m := np_mean fl in
              let h1 := <["mean" := ms ++ [m]]> h in
              match h !! "std" with
              | None =>
                  (Raise (KeyError "std"),
                   set_heap (<[loss := h1]> (w_heap w1)) w1)
              | Some ss =>
                  let h' := <["std" := ss ++ [np_std fl]]> h1 in
                  (Ok (next_best m best),
                   set_saved
                     ((checkpoint_path root_path prefix "latest",
                       epoch_record w1 h' e (next_best m best)) ::
                      (if PrimFloat.ltb m best
                       then [(checkpoint_path root_path prefix "best",
                              epoch_record w1 h' e m)]
                       else []) ++ w_saved w1)
                     (set_heap (<[loss := h']> (w_heap w1)) w1))
              end
          end
      end
  end.
Proof.
  unfold cross_validate_epoch. unfold bind at 1.
  destruct (cross_validate_folds _ _ _ w) as [[fl|err] w1]; [|done].
  unfold bind at 1. rewrite dict_append_cases.
  destruct (w_heap w1 !! loss) as [h|] eqn:Hh; [|done].
  destruct (h !! "mean") as [ms|] eqn:Hm; [|done].
  unfold bind at 1. rewrite dict_append_cases. simpl.
  rewrite lookup_insert_eq, lookup_insert_ne by done.
  destruct (h !! "std") as [ss|] eqn:Hs; [|done].
  simpl. rewrite insert_insert_eq.
  set (m := np_mean fl).
  set (h' := <["std" := ss ++ [np_std fl]]> (<["mean" := ms ++ [m]]> h)).
  set (w2 := set_heap (<[loss := h']> (w_heap w1)) w1).
  assert (Hw2 : w_heap w2 !! loss = Some h') by (simpl; apply lookup_insert_eq).
  unfold next_best. destruct (PrimFloat.ltb m best) eqn:Hlt.
  - unfold bind at 1. unfold bind at 1.
    rewrite save_checkpoints_keywords_best.
    rewrite (save_checkpoints_body_ok _ _ _ _ _ _ _ _ Hw2). unfold ret at 1.
    unfold bind at 1. rewrite save_checkpoints_keywords_latest.
    erewrite save_checkpoints_body_ok by exact Hw2. done.
  - unfold bind at 1. unfold ret at 1.
    unfold bind at 1. rewrite save_checkpoints_keywords_latest.
    erewrite save_checkpoints_body_ok by exact Hw2. done.
Qed.

Lemma cross_validate_folds_keeps {X} (obs : World -> X) single_fold_func
    dloader n_splits :
  (forall dl w, obs (single_fold_func dl w).2 = obs w) ->
  forall w, obs (cross_validate_folds single_fold_func dloader n_splits w).2 = obs w.
Proof.
  intros Hsf w. unfold cross_validate_folds.
  apply for_each_keeps. intros fold acc w1.
  apply bind_keeps; [done|]. intros dl w2.
  apply bind_keeps; [apply Hsf|]. intros floss w3.
  apply bind_keeps; done.
Qed.

(** Building the loaders leaves the state alone, also when it fails. *)
Lemma cross_validate_loaders_world dataset n_splits batch_size w :
  (cross_validate_loaders dataset n_splits batch_size w).2 = w.
Proof.
  unfold cross_validate_loaders, KFold_init.
  destruct (n_splits <=? 1); [done|]. simpl.
  unfold bind at 1. unfold lift at 1. unfold bind at 1.
  unfold KFold_split. simpl.
  by destruct (Z.of_nat (dataset_len dataset) <? n_splits).
Qed.

(** X12: with fewer than two folds, or more folds than rows,
    [cross_validate] raises [ValueError] when it asks for the split:
    nothing has been trained, appended or saved, and [single_fold_func] has
    not been called. *)
Theorem cross_validate_bad_fold_count dataset single_fold_func n_splits
    batch_size epoches start_epoches root_path prefix loss best w :
  n_splits <= 1 \/ Z.of_nat (dataset_len dataset) < n_splits ->
  exists msg,
    cross_validate dataset single_fold_func n_splits batch_size epoches
      start_epoches root_path prefix loss best w
    = (Raise (ValueError msg), w).
Proof.
  intros Hbad. unfold cross_validate. unfold bind at 1. unfold get at 1.
  unfold bind at 1. unfold bind at 1.
  unfold cross_validate_loaders, KFold_init.
  destruct (Z.leb_spec n_splits 1) as [Hle|Hgt].
  - eexists. reflexivity.
  - simpl. unfold bind at 1. unfold lift at 1. unfold bind at 1.
    unfold KFold_split. simpl.
    destruct (Z.ltb_spec (Z.of_nat (dataset_len dataset)) n_splits); [|lia].
    eexists. reflexivity.
Qed.

(** X13: with no epoch to run ([epoches <= 0]), a fold count that fits
    and a batch size a [DataLoader] accepts ([batch_size >= 1]),
    [cross_validate] returns at once and changes nothing: no fold is
    trained and no checkpoint written. *)
Theorem cross_validate_no_epochs dataset single_fold_func n_splits batch_size
    epoches start_epoches root_path prefix loss best w :
  epoches <= 0 ->
  2 <= n_splits <= Z.of_nat (dataset_len dataset) ->
  1 <= batch_size ->
  cross_validate dataset single_fold_func n_splits batch_size epoches
    start_epoches root_path prefix loss best w
  = (Ok tt, w).
Proof.
  intros He Hk _. unfold cross_validate. unfold bind at 1. unfold get at 1.
  unfold bind at 1. rewrite cross_validate_loaders_ok by done.
  rewrite py_range_nil by lia. done.
Qed.

(** X14: a history dict with ["mean"] and without ["std"] is left out of
    step: after the folds of the first epoch have run, the mean is
    appended, then [loss["std"]] raises [KeyError('std')], and no
    checkpoint is written. *)
Theorem cross_validate_epoch_missing_std single_fold_func dloader n_splits
    root_path prefix loss e best w fl w1 h ms :
  cross_validate_folds single_fold_func dloader n_splits w = (Ok fl, w1) ->
  w_heap w1 !! loss = Some h ->
  h !! "mean" = Some ms ->
  h !! "std" = None ->
  let r :=
    cross_validate_epoch single_fold_func dloader n_splits root_path prefix
      loss e best w in
  r.1 = Raise (KeyError "std") /\
  history loss "mean" r.2 = Some (ms ++ [np_mean fl]) /\
  history loss "std" r.2 = None /\
  w_saved r.2 = w_saved w1.
Proof.
  intros Hf Hh Hm Hs r. subst r.
  rewrite cross_validate_epoch_cases, Hf, Hh, Hm, Hs. simpl.
  split; [done|]. unfold history. simpl. rewrite lookup_insert_eq. simpl.
  rewrite lookup_insert_eq, lookup_insert_ne by done. by rewrite Hs.
Qed.

(** What a call of [cross_validate] that returns went through. *)
Lemma cross_validate_inv dataset single_fold_func n_splits batch_size epoches
    start_epoches root_path prefix loss best w w' :
  cross_validate dataset single_fold_func n_splits batch_size epoches
    start_epoches root_path prefix loss best w = (Ok tt, w') ->
  exists dloader best',
    cross_validate_loaders dataset n_splits batch_size w = (Ok dloader, w) /\
    for_each (py_range start_epoches (start_epoches + epoches))
      (cross_validate_epoch single_fold_func dloader n_splits root_path
         (default (class_name (w_model w)) prefix)
         (default cross_validate_default_loss loss))
      best w = (Ok best', w').
Proof.
  unfold cross_validate. unfold bind at 1. unfold get at 1. unfold bind at 1.
  pose proof (cross_validate_loaders_world dataset n_splits batch_size w) as Hw.
  destruct (cross_validate_loaders dataset n_splits batch_size w)
    as [[dloader|err] w0]; simpl in Hw; subst w0; [|done].
  unfold bind at 1.
  destruct (for_each _ _ best w) as [[best'|err] w1] eqn:Hloop; [|done].
  intros [= <-]. by exists dloader, best'.
Qed.

Lemma for_each_snoc {A S} (l : list A) (x : A) (body : A -> S -> M S) s w :
  for_each (l ++ [x]) body s w = bind (for_each l body s) (body x) w.
Proof.
  revert s w. induction l as [|y l IH]; intros s w; simpl.
  - unfold bind, ret. by destruct (body x s w) as [[?|?] ?].
  - unfold bind in *. destruct (body y s w) as [[s1|err] w1]; [|done].
    apply IH.
Qed.

Lemma py_range_snoc a b : a < b -> py_range a b = py_range a (b - 1) ++ [b - 1].
Proof.
  intros Hab. unfold py_range.
  replace (Z.to_nat (b - a)) with (Z.to_nat (b - 1 - a) + 1)%nat by lia.
  rewrite seq_app, fmap_app. simpl. do 2 f_equal. lia.
Qed.

Lemma py_range_length a b : length (py_range a b) = Z.to_nat (b - a).
Proof. unfold py_range. by rewrite length_fmap, length_seq. Qed.

Lemma best_path_not_latest root_path prefix :
  String.eqb (checkpoint_path root_path prefix "best")
    (checkpoint_path root_path prefix "latest") = false.
Proof.
  apply String.eqb_neq. intros Heq. by apply checkpoint_path_inj in Heq.
Qed.

(** The latest checkpoints of one epoch: one more, numbered [e]. *)
Lemma cross_validate_epoch_saved_epochs single_fold_func dloader n_splits
    root_path prefix loss e best w best' w' :
  (forall dl w0, w_saved (single_fold_func dl w0).2 = w_saved w0) ->
  cross_validate_epoch single_fold_func dloader n_splits root_path prefix loss
    e best w = (Ok best', w') ->
  saved_epochs (checkpoint_path root_path prefix "latest") w'
  = e :: saved_epochs (checkpoint_path root_path prefix "latest") w.
Proof.
  intros Hsf. rewrite cross_validate_epoch_cases.
  pose proof (cross_validate_folds_keeps w_saved single_fold_func dloader
                n_splits Hsf w) as Hsaved.
  destruct (cross_validate_folds _ _ _ w) as [[fl|err] w1]; [|done].
  simpl in Hsaved.
  destruct (w_heap w1 !! loss) as [h|]; [|done].
  destruct (h !! "mean") as [ms|]; [|done].
  destruct (h !! "std") as [ss|]; [|done].
  intros [= _ <-]. unfold saved_epochs. simpl.
  rewrite String.eqb_refl. simpl. f_equal.
  rewrite Hsaved.
  destruct (PrimFloat.ltb _ _); [|done].
  simpl. by rewrite best_path_not_latest.
Qed.

Lemma cross_validate_epochs_saved_epochs single_fold_func dloader n_splits
    root_path prefix loss es :
  (forall dl w0, w_saved (single_fold_func dl w0).2 = w_saved w0) ->
  forall best w best' w',
    for_each es
      (cross_validate_epoch single_fold_func dloader n_splits root_path prefix
         loss) best w = (Ok best', w') ->
    saved_epochs (checkpoint_path root_path prefix "latest") w'
    = reverse es ++ saved_epochs (checkpoint_path root_path prefix "latest") w.
Proof.
  intros Hsf. induction es as [|e es IH]; intros best w best' w'; simpl.
  - by intros [= _ <-].
  - unfold bind.
    destruct (cross_validate_epoch _ _ _ _ _ _ e best w) as [[b1|err] w1] eqn:He;
      [|done].
    intros Hrest. rewrite (IH _ _ _ _ Hrest).
    rewrite (cross_validate_epoch_saved_epochs _ _ _ _ _ _ _ _ _ _ _ Hsf He).
    by rewrite reverse_cons, <- (assoc_L (++)).
Qed.

(** X15: a call of [cross_validate] that returns has written a latest
    checkpoint for each epoch it ran, in order, numbered from
    [start_epoches] on: the numbers go on from where the caller says, they
    do not restart at 0. *)
Theorem cross_validate_latest_epochs dataset single_fold_func n_splits
    batch_size epoches start_epoches root_path prefix loss best w w' :
  (forall dl w0, w_saved (single_fold_func dl w0).2 = w_saved w0) ->
  cross_validate dataset single_fold_func n_splits batch_size epoches
    start_epoches root_path prefix loss best w = (Ok tt, w') ->
  let path :=
    checkpoint_path root_path (default (class_name (w_model w)) prefix) "latest" in
  saved_epochs path w'
  = reverse (py_range start_epoches (start_epoches + epoches))
      ++ saved_epochs path w.
Proof.
  intros Hsf Hrun path.
  destruct (cross_validate_inv _ _ _ _ _ _ _ _ _ _ _ _ Hrun)
    as (dloader & best' & _ & Hloop).
  by eapply cross_validate_epochs_saved_epochs.
Qed.

Lemma cross_validate_epoch_history single_fold_func dloader n_splits
    root_path prefix loss e best w best' w' :
  (forall dl w0, w_heap (single_fold_func dl w0).2 = w_heap w0) ->
  cross_validate_epoch single_fold_func dloader n_splits root_path prefix loss
    e best w = (Ok best', w') ->
  exists ms ss m sd,
    history loss "mean" w = Some ms /\
    history loss "std" w = Some ss /\
    history loss "mean" w' = Some (ms ++ [m]) /\
    history loss "std" w' = Some (ss ++ [sd]).
Proof.
  intros Hsf. rewrite cross_validate_epoch_cases.
  pose proof (cross_validate_folds_keeps w_heap single_fold_func dloader
                n_splits Hsf w) as Hheap.
  destruct (cross_validate_folds _ _ _ w) as [[fl|err] w1]; [|done].
  simpl in Hheap. unfold history. rewrite <- Hheap.
  destruct (w_heap w1 !! loss) as [h|]; [|done].
  destruct (h !! "mean") as [ms|] eqn:Hm; [|done].
  destruct (h !! "std") as [ss|] eqn:Hs; [|done].
  intros [= _ <-]. exists ms, ss, (np_mean fl), (np_std fl). simpl.
  rewrite Hm, Hs, lookup_insert_eq. simpl.
  by rewrite lookup_insert_ne, !lookup_insert_eq.
Qed.

Lemma cross_validate_epochs_history single_fold_func dloader n_splits
    root_path prefix loss es :
  (forall dl w0, w_heap (single_fold_func dl w0).2 = w_heap w0) ->
  forall best w best' w' ms ss,
    for_each es
      (cross_validate_epoch single_fold_func dloader n_splits root_path prefix
         loss) best w = (Ok best', w') ->
    history loss "mean" w = Some ms ->
    history loss "std" w = Some ss ->
    exists means stds,
      length means = length es /\ length stds = length es /\
      history loss "mean" w' = Some (ms ++ means) /\
      history loss "std" w' = Some (ss ++ stds).
Proof.
  intros Hsf. induction es as [|e es IH]; intros best w best' w' ms ss; simpl.
  - intros [= _ <-] Hm Hs. exists [], []. by rewrite !app_nil_r.
  - unfold bind.
    destruct (cross_validate_epoch _ _ _ _ _ _ e best w) as [[b1|err] w1] eqn:He;
      [|done].
    intros Hrest Hm Hs.
    destruct (cross_validate_epoch_history _ _ _ _ _ _ _ _ _ _ _ Hsf He)
      as (ms0 & ss0 & m & sd & Hm0 & Hs0 & Hm1 & Hs1).
    simplify_eq.
    destruct (IH _ _ _ _ _ _ Hrest Hm1 Hs1)
      as (means & stds & Hlm & Hls & Hmean & Hstd).
    exists (m :: means), (sd :: stds). simpl.
    rewrite Hlm, Hls, Hmean, Hstd, <- !(assoc_L (++)). done.
Qed.

(** X16: a call of [cross_validate] that returns has appended one mean and
    one standard deviation per epoch to the history it was given, behind
    the entries that were there, provided the fold function leaves the
    history dicts alone, as [train_single_fold] does: the two lists grow in
    step. *)
Theorem cross_validate_history_grows dataset single_fold_func n_splits
    batch_size epoches start_epoches root_path prefix loss best w w' ms ss :
  (forall dl w0, w_heap (single_fold_func dl w0).2 = w_heap w0) ->
  cross_validate dataset single_fold_func n_splits batch_size epoches
    start_epoches root_path prefix loss best w = (Ok tt, w') ->
  let l := default cross_validate_default_loss loss in
  history l "mean" w = Some ms ->
  history l "std" w = Some ss ->
  exists means stds,
    length means = Z.to_nat epoches /\
    length stds = Z.to_nat epoches /\
    history l "mean" w' = Some (ms ++ means) /\
    history l "std" w' = Some (ss ++ stds).
Proof.
  intros Hsf Hrun l Hm Hs.
  destruct (cross_validate_inv _ _ _ _ _ _ _ _ _ _ _ _ Hrun)
    as (dloader & best' & _ & Hloop).
  destruct (cross_validate_epochs_history _ _ _ _ _ _ _ Hsf _ _ _ _ _ _
              Hloop Hm Hs) as (means & stds & Hlm & Hls & Hmean & Hstd).
  exists means, stds. rewrite Hlm, Hls, py_range_length.
  repeat split; try done; f_equal; lia.
Qed.

(** X17: after a call of [cross_validate] that ran at least one epoch and
    returned, the save made last is the latest checkpoint, and it holds
    the state the call ends in: the number of the last epoch, the state
    dicts of the model and the optimizer as they are now and the history
    as it is now. *)
Theorem cross_validate_last_checkpoint_is_final_state dataset single_fold_func
    n_splits batch_size epoches start_epoches root_path prefix loss best w w' :
  0 < epoches ->
  cross_validate dataset single_fold_func n_splits batch_size epoches
    start_epoches root_path prefix loss best w = (Ok tt, w') ->
  exists h' best',
    w_heap w' !! default cross_validate_default_loss loss = Some h' /\
    head (w_saved w')
    = Some (checkpoint_path root_path (default (class_name (w_model w)) prefix)
              "latest",
            epoch_record w' h' (start_epoches + epoches - 1) best').
Proof.
  intros Hpos Hrun.
  destruct (cross_validate_inv _ _ _ _ _ _ _ _ _ _ _ _ Hrun)
    as (dloader & best' & _ & Hloop).
  rewrite py_range_snoc, for_each_snoc in Hloop by lia.
  unfold bind in Hloop.
  destruct (for_each _ _ best w) as [[b1|err] w1]; [|done].
  rewrite cross_validate_epoch_cases in Hloop.
  destruct (cross_validate_folds _ _ _ w1) as [[fl|err] w2]; [|done].
  destruct (w_heap w2 !! _) as [h|]; [|done].
  destruct (h !! "mean") as [ms|]; [|done].
  destruct (h !! "std") as [ss|]; [|done].
  injection Hloop as <- <-. eexists _, _. simpl.
  split; [apply lookup_insert_eq | reflexivity].
Qed.

(** X18: when the mean of an epoch is below the best loss so far,
    [cross_validate] writes the best checkpoint and then the latest one,
    and the two hold the same record, with the mean as [best_loss] and the
    history with this epoch's entries in it. *)
Theorem cross_validate_epoch_best_equals_latest single_fold_func dloader
    n_splits root_path prefix loss e best w fl w1 h ms ss :
  cross_validate_folds single_fold_func dloader n_splits w = (Ok fl, w1) ->
  w_heap w1 !! loss = Some h ->
  h !! "mean" = Some ms ->
  h !! "std" = Some ss ->
  PrimFloat.ltb (np_mean fl) best = true ->
  let w' :=
    (cross_validate_epoch single_fold_func dloader n_splits root_path prefix
       loss e best w).2 in
  exists record h',
    w_saved w' =
      (checkpoint_path root_path prefix "latest", record) ::
      (checkpoint_path root_path prefix "best", record) :: w_saved w1 /\
    field "best_loss" record = Some (SFloat (np_mean fl)) /\
    field "epoch" record = Some (SInt e) /\
    field "loss" record = Some (SHistory h') /\
    w_heap w' !! loss = Some h' /\
    h' !! "mean" = Some (ms ++ [np_mean fl]) /\
    h' !! "std" = Some (ss ++ [np_std fl]).
Proof.
  intros Hf Hh Hm Hs Hlt w'. subst w'.
  rewrite cross_validate_epoch_cases, Hf, Hh, Hm, Hs. simpl.
  unfold next_best. rewrite Hlt. simpl.
  eexists _, _. split; [reflexivity|].
  repeat split; try reflexivity.
  - apply lookup_insert_eq.
  - by rewrite lookup_insert_ne, lookup_insert_eq.
  - apply lookup_insert_eq.
Qed.

(** ** The comparison with the best loss *)

Lemma SFcompare_refl f :
  SFcompare f f = None \/ SFcompare f f = Some Eq.
Proof.
  destruct f as [s| s | |s m e]; simpl; auto.
  - destruct s; auto.
  - right. rewrite Z.compare_refl, Pos.compare_cont_refl. by destruct s.
Qed.

Lemma SFcompare_antisym f1 f2 :
  SFcompare f2 f1 = CompOpp <$> SFcompare f1 f2.
Proof.
  destruct f1 as [s1|s1| |s1 m1 e1], f2 as [s2|s2| |s2 m2 e2]; simpl;
    try done; try (by destruct s1); try (by destruct s2);
    try (by destruct s1, s2).
  f_equal. rewrite (Z.compare_antisym e1 e2).
  destruct s1, s2; simpl; try done.
  - destruct (e1 ?= e2) eqn:He; simpl; try done.
    by rewrite (Pos.compare_cont_antisym m1 m2 Eq).
  - destruct (e1 ?= e2) eqn:He; simpl; try done.
    by rewrite (Pos.compare_cont_antisym m1 m2 Eq).
Qed.

(** [x < x] is false for every float, NaN included. *)
Lemma float_ltb_irrefl x : PrimFloat.ltb x x = false.
Proof.
  rewrite ltb_spec. unfold SFltb.
  by destruct (SFcompare_refl (Prim2SF x)) as [-> | ->].
Qed.

(** [x < y] and [y < x] do not both hold. *)
Lemma float_ltb_asym x y : PrimFloat.ltb x y = true -> PrimFloat.ltb y x = false.
Proof.
  rewrite !ltb_spec. unfold SFltb.
  rewrite (SFcompare_antisym (Prim2SF x) (Prim2SF y)).
  by destruct (SFcompare (Prim2SF x) (Prim2SF y)) as [[]|].
Qed.

(** Nothing is below NaN, and NaN is below nothing. *)
Lemma float_ltb_nan x :
  PrimFloat.ltb x PrimFloat.nan = false /\ PrimFloat.ltb PrimFloat.nan x = false.
Proof.
  rewrite !ltb_spec. unfold SFltb.
  change (Prim2SF PrimFloat.nan) with S754_nan.
  split; [by destruct (Prim2SF x) | done].
Qed.

(** X19: the test for a new best is strict for every float: an epoch of
    [cross_validate] whose mean equals the best loss so far writes the
    latest checkpoint only and hands the best loss on unchanged. *)
Theorem cross_validate_epoch_equal_mean_no_best single_fold_func dloader
    n_splits root_path prefix loss e w fl w1 h ms ss :
  cross_validate_folds single_fold_func dloader n_splits w = (Ok fl, w1) ->
  w_heap w1 !! loss = Some h ->
  h !! "mean" = Some ms ->
  h !! "std" = Some ss ->
  let best := np_mean fl in
  let r :=
    cross_validate_epoch single_fold_func dloader n_splits root_path prefix
      loss e best w in
  exists record,
    r.1 = Ok best /\
    w_saved r.2 = (checkpoint_path root_path prefix "latest", record) :: w_saved w1 /\
    field "best_loss" record = Some (SFloat best).
Proof.
  intros Hf Hh Hm Hs best r. subst r.
  rewrite cross_validate_epoch_cases, Hf, Hh, Hm, Hs. simpl.
  unfold next_best. fold best. rewrite float_ltb_irrefl. simpl.
  eexists. repeat split; reflexivity.
Qed.

(** X20: the best loss never goes up: the value an epoch of
    [cross_validate] hands on, which is also the [best_loss] of its latest
    checkpoint, is the mean if that is below the best so far and the best
    so far otherwise, and in no case above it. *)
Theorem cross_validate_epoch_best_never_rises single_fold_func dloader n_splits
    root_path prefix loss e best w best' w' :
  cross_validate_epoch single_fold_func dloader n_splits root_path prefix loss
    e best w = (Ok best', w') ->
  PrimFloat.ltb best best' = false /\
  exists record,
    head (w_saved w') = Some (checkpoint_path root_path prefix "latest", record) /\
    field "best_loss" record = Some (SFloat best').
Proof.
  rewrite cross_validate_epoch_cases.
  destruct (cross_validate_folds _ _ _ w) as [[fl|err] w1]; [|done].
  destruct (w_heap w1 !! loss) as [h|]; [|done].
  destruct (h !! "mean") as [ms|]; [|done].
  destruct (h !! "std") as [ss|]; [|done].
  intros [= <- <-]. split.
  - unfold next_best. destruct (PrimFloat.ltb (np_mean fl) best) eqn:Hlt.
    + by apply float_ltb_asym.
    + apply float_ltb_irrefl.
  - eexists. split; reflexivity.
Qed.

(** X21: once the best loss is NaN it stays NaN: whatever the mean, the
    comparison is false, so the epoch writes the latest checkpoint only,
    with NaN as its [best_loss]. *)
Theorem cross_validate_epoch_nan_best single_fold_func dloader n_splits
    root_path prefix loss e w fl w1 h ms ss :
  cross_validate_folds single_fold_func dloader n_splits w = (Ok fl, w1) ->
  w_heap w1 !! loss = Some h ->
  h !! "mean" = Some ms ->
  h !! "std" = Some ss ->
  let r :=
    cross_validate_epoch single_fold_func dloader n_splits root_path prefix
      loss e PrimFloat.nan w in
  exists record,
    r.1 = Ok PrimFloat.nan /\
    w_saved r.2 = (checkpoint_path root_path prefix "latest", record) :: w_saved w1 /\
    field "best_loss" record = Some (SFloat PrimFloat.nan).
Proof.
  intros Hf Hh Hm Hs r. subst r.
  rewrite cross_validate_epoch_cases, Hf, Hh, Hm, Hs. simpl.
  unfold next_best. rewrite (proj1 (float_ltb_nan (np_mean fl))). simpl.
  eexists. repeat split; reflexivity.
Qed.

(** ** train_model *)

Lemma history_lookup l key w v :
  history l key w = Some v ->
  exists d, w_heap w !! l = Some d /\ d !! key = Some v.
Proof.
  unfold history. destruct (w_heap w !! l) as [d|]; [|done].
  simpl. intros Hk. by exists d.
Qed.

(** X22: [train_model] returns normally exactly when it has no epoch to
    run ([epoches <= 0]), and then it has done nothing; with one epoch or
    more it ends in an exception, whatever the other arguments. *)
Theorem train_model_returns_iff_no_epoch dloader root_path model_name epoches
    start_epoch loss best w :
  (is_ok
     (train_model dloader root_path model_name epoches start_epoch loss best w).1
   = true <-> epoches <= 0) /\
  (epoches <= 0 ->
   train_model dloader root_path model_name epoches start_epoch loss best w
   = (Ok tt, w)).
Proof.
  assert (Hnone : epoches <= 0 ->
    train_model dloader root_path model_name epoches start_epoch loss best w
    = (Ok tt, w)).
  { intros He. unfold train_model. unfold bind at 1. unfold get at 1.
    by rewrite py_range_nil by lia. }
  split; [|exact Hnone]. split.
  - intros Hok. destruct (Z.le_gt_cases epoches 0) as [|Hpos]; [done|].
    rewrite train_model_not_ok in Hok by lia. done.
  - intros He. by rewrite Hnone.
Qed.

(** X23: [train_model] writes no checkpoint, for any arguments and in any
    state: the records saved before the call are the records saved after
    it. *)
Theorem train_model_never_saves dloader root_path model_name epoches
    start_epoch loss best w :
  let w' :=
    (train_model dloader root_path model_name epoches start_epoch loss best w).2 in
  w_saved w' = w_saved w /\ w_np_rng w' = w_np_rng w.
Proof.
  simpl. split; [apply train_model_saved|].
  unfold train_model.
  apply bind_keeps; [done|]. intros w0 w1.
  apply bind_keeps; [|done].
  apply for_each_keeps. intros e b w2. unfold train_model_epoch.
  apply bind_keeps;
    [apply train_single_fold_keeps; [done | apply run_batch_np_rng]|].
  intros floss w3. apply bind_keeps; [done|]. intros floss0 w4.
  assert (Happ : forall l key x w5,
            w_np_rng (dict_append l key x w5).2 = w_np_rng w5).
  { intros l key x w5. rewrite dict_append_cases.
    destruct (w_heap w5 !! l) as [d|]; [|done]. by destruct (d !! key). }
  apply bind_keeps; [apply Happ|]. intros _ w5.
  apply bind_keeps; [done|]. intros floss1 w6.
  apply bind_keeps; [apply Happ|]. intros _ w7.
  apply bind_keeps; [by rewrite dict_get_world|]. intros vals w8.
  apply bind_keeps; [done|]. intros v w9.
  apply bind_keeps.
  - destruct (PrimFloat.ltb v b); [|done].
    apply bind_keeps; [by rewrite dict_get_world|]. intros vals' w10.
    apply bind_keeps; [done|]. intros best' w11.
    apply bind_keeps; [by rewrite save_checkpoints_positional_best | done].
  - intros best' w10.
    apply bind_keeps; [by rewrite save_checkpoints_positional_latest | done].
Qed.

(** X24: however many epochs are asked for, [train_model] runs the first
    one only: when [train_single_fold] returns the losses [t] and [v] and
    the history dict has both lists, [t] and [v] are appended, no
    checkpoint is written, and the call ends in the [TypeError] of its
    first [save_checkpoints] call, with the model and the optimizer as one
    epoch of training left them. *)
Theorem train_model_runs_one_epoch dloader root_path model_name epoches
    start_epoch loss best w t v w1 ts vs :
  0 < epoches ->
  train_single_fold dloader w = (Ok [t; v], w1) ->
  let l := default train_model_default_loss loss in
  history l "train" w = Some ts ->
  history l "val" w = Some vs ->
  exists w',
    train_model dloader root_path model_name epoches start_epoch loss best w
    = (Raise (TypeError
         "save_checkpoints() got multiple values for argument 'logger'"), w') /\
    history l "train" w' = Some (ts ++ [t]) /\
    history l "val" w' = Some (vs ++ [v]) /\
    w_saved w' = w_saved w /\
    w_model w' = w_model w1 /\
    w_optim w' = w_optim w1.
Proof.
  intros Hpos Hfold l Ht Hv.
  destruct (train_single_fold_frame dloader w) as (Hheap & Hsaved & _).
  rewrite Hfold in Hheap, Hsaved. simpl in Hheap, Hsaved.
  destruct (history_lookup _ _ _ _ Ht) as (d & Hd & Hdt).
  destruct (history_lookup _ _ _ _ Hv) as (d' & Hd' & Hdv).
  simplify_eq. rewrite <- Hheap in Hd.
  set (d1 := <["train" := ts ++ [t]]> d).
  set (w2 := set_heap (<[l := d1]> (w_heap w1)) w1).
  set (d2 := <["val" := vs ++ [v]]> d1).
  set (w3 := set_heap (<[l := d2]> (w_heap w2)) w2).
  exists w3.
  assert (Hepoch : forall b,
    train_model_epoch dloader root_path
      (default (class_name (w_model w)) model_name) l start_epoch b w
    = (Raise (TypeError
         "save_checkpoints() got multiple values for argument 'logger'"), w3)).
  { intros b. unfold train_model_epoch.
    rewrite (bind_ok _ _ _ _ _ Hfold).
    unfold bind at 1. unfold lift at 1, py_index. simpl.
    rewrite (bind_ok _ _ _ _ _ (dict_append_ok _ _ _ _ _ _ Hd Hdt)).
    fold d1 w2.
    unfold bind at 1. unfold lift at 1. simpl.
    assert (Hd1 : w_heap w2 !! l = Some d1) by (simpl; apply lookup_insert_eq).
    assert (Hd1v : d1 !! "val" = Some vs)
      by (unfold d1; by rewrite lookup_insert_ne).
    rewrite (bind_ok _ _ _ _ _ (dict_append_ok _ _ _ _ _ _ Hd1 Hd1v)).
    fold d2 w3.
    assert (Hd2 : w_heap w3 !! l = Some d2) by (simpl; apply lookup_insert_eq).
    assert (Hd2v : d2 !! "val" = Some (vs ++ [v])) by apply lookup_insert_eq.
    rewrite (bind_ok _ _ _ _ _ (dict_get_ok _ _ _ _ _ Hd2 Hd2v)).
    unfold bind at 1. unfold lift at 1, py_last. rewrite last_snoc.
    destruct (PrimFloat.ltb v b).
    - unfold bind at 1.
      rewrite (bind_ok _ _ _ _ _ (dict_get_ok _ _ _ _ _ Hd2 Hd2v)).
      unfold bind at 1. unfold lift at 1, py_last. rewrite last_snoc.
      unfold bind at 1. by rewrite save_checkpoints_positional_best.
    - unfold bind at 1. unfold ret at 1. unfold bind at 1.
      by rewrite save_checkpoints_positional_latest. }
  split.
  - unfold train_model. fold l. unfold bind at 1. unfold get at 1.
    rewrite py_range_cons by lia. cbn [for_each].
    unfold bind at 1. unfold bind at 1. by rewrite Hepoch.
  - unfold history. simpl. rewrite !lookup_insert_eq. simpl.
    unfold d2, d1. rewrite lookup_insert_ne, !lookup_insert_eq by done.
    done.
Qed.

(** ** cross_validate: going on from a checkpoint *)

Lemma for_each_app {A S} (l1 l2 : list A) (body : A -> S -> M S) s w :
  for_each (l1 ++ l2) body s w
  = bind (for_each l1 body s) (fun s' => for_each l2 body s') w.
Proof.
  revert s w. induction l1 as [|x l1 IH]; intros s w; simpl.
  - done.
  - unfold bind in *. destruct (body x s w) as [[s1|err] w1]; [|done].
    apply IH.
Qed.

Lemma py_range_app a b c :
  a <= b -> b <= c -> py_range a c = py_range a b ++ py_range b c.
Proof.
  intros Hab Hbc. unfold py_range.
  replace (Z.to_nat (c - a)) with (Z.to_nat (b - a) + Z.to_nat (c - b))%nat by lia.
  rewrite seq_app, fmap_app. f_equal.
  rewrite (Nat.add_comm 0), <- fmap_add_seq, <- list_fmap_compose.
  apply list_fmap_ext. intros _ i _. simpl. lia.
Qed.

(** The loaders built do not depend on the state. *)
Lemma cross_validate_loaders_any_world dataset n_splits batch_size w w0 :
  cross_validate_loaders dataset n_splits batch_size w0
  = ((cross_validate_loaders dataset n_splits batch_size w).1, w0).
Proof.
  unfold cross_validate_loaders, KFold_init.
  destruct (n_splits <=? 1); [done|]. simpl.
  unfold bind at 1 3. unfold lift. unfold bind. unfold KFold_split. simpl.
  by destruct (Z.of_nat (dataset_len dataset) <? n_splits).
Qed.

(** After a run of one epoch or more, the newest record carries the best
    loss the run ended with. *)
Lemma cross_validate_epochs_last_best single_fold_func dloader n_splits
    root_path prefix loss es e best w best' w' :
  for_each (es ++ [e])
    (cross_validate_epoch single_fold_func dloader n_splits root_path prefix
       loss) best w = (Ok best', w') ->
  exists record,
    head (w_saved w') = Some (checkpoint_path root_path prefix "latest", record) /\
    field "best_loss" record = Some (SFloat best').
Proof.
  rewrite for_each_snoc. unfold bind.
  destruct (for_each es _ best w) as [[b1|err] w1]; [|done].
  rewrite cross_validate_epoch_cases.
  destruct (cross_validate_folds _ _ _ w1) as [[fl|err] w2]; [|done].
  destruct (w_heap w2 !! loss) as [h|]; [|done].
  destruct (h !! "mean") as [ms|]; [|done].
  destruct (h !! "std") as [ss|]; [|done].
  intros [= <- <-]. eexists. split; reflexivity.
Qed.

(** X27: [cross_validate] can be taken up where it stopped.  After a call
    for [e1 >= 1] epochs from [start] that returned, a second call for
    [e2] epochs from [start + e1], given the same history dict and the
    [best_loss] found in the newest checkpoint, ends exactly as one call
    for [e1 + e2] epochs from [start] would have: same result, same model
    and optimizer, same history, same checkpoints. *)
Theorem cross_validate_resume dataset single_fold_func n_splits batch_size
    e1 e2 start root_path prefix loss best w w1 path record best1 :
  0 < e1 -> 0 <= e2 ->
  cross_validate dataset single_fold_func n_splits batch_size e1 start
    root_path prefix loss best w = (Ok tt, w1) ->
  class_name (w_model w1) = class_name (w_model w) ->
  head (w_saved w1) = Some (path, record) ->
  field "best_loss" record = Some (SFloat best1) ->
  cross_validate dataset single_fold_func n_splits batch_size e2 (start + e1)
    root_path prefix loss best1 w1
  = cross_validate dataset single_fold_func n_splits batch_size (e1 + e2) start
      root_path prefix loss best w.
Proof.
  intros He1 He2 Hrun Hname Hhead Hfield.
  destruct (cross_validate_inv _ _ _ _ _ _ _ _ _ _ _ _ Hrun)
    as (dloader & b1 & Hload & Hloop).
  assert (Hb : b1 = best1).
  { rewrite py_range_snoc in Hloop by lia.
    destruct (cross_validate_epochs_last_best _ _ _ _ _ _ _ _ _ _ _ _ Hloop)
      as (record' & Hhead' & Hfield').
    rewrite Hhead in Hhead'. injection Hhead' as _ <-.
    rewrite Hfield in Hfield'. by injection Hfield' as ->. }
  subst b1.
  unfold cross_validate.
  unfold bind at 1 4. unfold get at 1 2.
  unfold bind at 1 3.
  rewrite (cross_validate_loaders_any_world dataset n_splits batch_size w w1).
  rewrite Hload. simpl. rewrite Hname.
  rewrite (py_range_app start (start + e1) (start + (e1 + e2))) by lia.
  replace (start + e1 + e2) with (start + (e1 + e2)) by lia.
  unfold bind at 2. rewrite for_each_app.
  unfold bind at 2. by rewrite Hloop.
Qed.

(** X28: when a fold fails, the epoch of [cross_validate] ends with the
    exception of that fold: nothing is appended to the history and no
    checkpoint is written for the epoch, so that the latest checkpoint on
    disk is still that of the epoch before (the fold function leaving
    history and checkpoints alone, as [train_single_fold] does). *)
Theorem cross_validate_epoch_fold_failure single_fold_func dloader n_splits
    root_path prefix loss e best w err w1 :
  (forall dl w0, w_heap (single_fold_func dl w0).2 = w_heap w0) ->
  (forall dl w0, w_saved (single_fold_func dl w0).2 = w_saved w0) ->
  cross_validate_folds single_fold_func dloader n_splits w = (Raise err, w1) ->
  cross_validate_epoch single_fold_func dloader n_splits root_path prefix loss
    e best w = (Raise err, w1) /\
  w_heap w1 = w_heap w /\
  w_saved w1 = w_saved w.
Proof.
  intros Hheap Hsaved Hf.
  rewrite cross_validate_epoch_cases, Hf. split; [done|].
  pose proof (cross_validate_folds_keeps w_heap single_fold_func dloader
                n_splits Hheap w) as H1.
  pose proof (cross_validate_folds_keeps w_saved single_fold_func dloader
                n_splits Hsaved w) as H2.
  rewrite Hf in H1, H2. done.
Qed.

End MoreFacts.

(** ** get_train_info_logger *)

(** What a call does when the file opens. *)
Lemma get_train_info_logger_open can_open filepath show_in_terminal lg :
  handlers_known lg ->
  can_open filepath = true ->
  get_train_info_logger can_open filepath show_in_terminal lg
  = Some
      (mkRootLogger
         (lg_handlers lg ++
            mkHandler (lg_next_id lg) (FileHandler filepath)
              (Some train_info_format) ::
            (if show_in_terminal
             then [mkHandler (S (lg_next_id lg)) StreamHandler
                     (Some train_info_format)]
             else []))
         INFO (S (S (lg_next_id lg)))).
Proof.
  intros Hknown Hopen. unfold get_train_info_logger. rewrite Hopen. simpl.
  set (fh := mkHandler (lg_next_id lg) (FileHandler filepath)
               (Some train_info_format)).
  set (sh := mkHandler (S (lg_next_id lg)) StreamHandler
               (Some train_info_format)).
  set (lg0 := mkRootLogger (lg_handlers lg) (lg_level lg) (S (S (lg_next_id lg)))).
  assert (Hin0 : forall h, h ∈ lg_handlers lg -> (h_id h < lg_next_id lg)%nat)
    by (intros h Hh; exact (proj1 (Forall_forall _ _) Hknown h Hh)).
  assert (Hadd1 : addHandler fh lg0
            = mkRootLogger (lg_handlers lg ++ [fh]) (lg_level lg)
                (S (S (lg_next_id lg)))).
  { unfold addHandler. rewrite bool_decide_eq_false_2; [done|].
    simpl. intros Hin. apply list_elem_of_fmap in Hin as (h & Heq & Hh).
    specialize (Hin0 h Hh). simpl in Heq. lia. }
  rewrite Hadd1. destruct show_in_terminal; [|done].
  unfold addHandler. rewrite bool_decide_eq_false_2.
  - simpl. by rewrite <- (assoc_L (++)).
  - simpl. rewrite fmap_app. simpl. intros Hin.
    apply elem_of_app in Hin as [Hin|Hin].
    + apply list_elem_of_fmap in Hin as (h & Heq & Hh).
      specialize (Hin0 h Hh). lia.
    + apply list_elem_of_singleton in Hin. lia.
Qed.

Lemma get_train_info_logger_must_open can_open filepath show_in_terminal lg lg' :
  get_train_info_logger can_open filepath show_in_terminal lg = Some lg' ->
  can_open filepath = true.
Proof.
  unfold get_train_info_logger. by destruct (can_open filepath).
Qed.

Lemma get_train_info_logger_known can_open filepath show_in_terminal lg lg' :
  handlers_known lg ->
  get_train_info_logger can_open filepath show_in_terminal lg = Some lg' ->
  handlers_known lg'.
Proof.
  intros Hknown Hcall.
  pose proof (get_train_info_logger_must_open _ _ _ _ _ Hcall) as Hopen.
  rewrite (get_train_info_logger_open _ _ _ _ Hknown Hopen) in Hcall.
  injection Hcall as <-. unfold handlers_known in *. simpl.
  apply Forall_app. split.
  - eapply Forall_impl; [exact Hknown|]. simpl. intros; lia.
  - destruct show_in_terminal; repeat constructor; simpl; lia.
Qed.

(** X25: a call of [get_train_info_logger] that gets its file open puts a
    new [FileHandler] for [filepath] behind the handlers the root logger
    has, and behind it a new [StreamHandler] if and only if
    [show_in_terminal] is set; both carry the formatter; the level of the
    root logger becomes [INFO] whatever it was.  No handler is removed or
    replaced. *)
Theorem get_train_info_logger_effect can_open filepath show_in_terminal lg lg' :
  handlers_known lg ->
  get_train_info_logger can_open filepath show_in_terminal lg = Some lg' ->
  let file_handler :=
    mkHandler (lg_next_id lg) (FileHandler filepath) (Some train_info_format) in
  let stream_handler :=
    mkHandler (S (lg_next_id lg)) StreamHandler (Some train_info_format) in
  can_open filepath = true /\
  lg_handlers lg'
  = lg_handlers lg ++ file_handler ::
      (if show_in_terminal then [stream_handler] else []) /\
  lg_level lg' = INFO /\
  handlers_known lg'.
Proof.
  intros Hknown Hcall fh sh.
  pose proof (get_train_info_logger_must_open _ _ _ _ _ Hcall) as Hopen.
  pose proof (get_train_info_logger_known _ _ _ _ _ Hknown Hcall) as Hknown'.
  rewrite (get_train_info_logger_open _ _ _ _ Hknown Hopen) in Hcall.
  injection Hcall as <-. done.
Qed.

(** X26: the handlers add up: [n] calls of [get_train_info_logger] for
    the same file, each finding the file open, leave [n] more
    [FileHandler]s for that file on the root logger, beside those that
    were there; a handler for the same file being there already does not
    stop a call from adding another. *)
Theorem get_train_info_logger_handlers_add_up n can_open filepath
    show_in_terminal lg :
  handlers_known lg ->
  can_open filepath = true ->
  exists lg',
    get_train_info_logger_times n can_open filepath show_in_terminal lg
    = Some lg' /\
    length (file_handlers filepath lg')
    = (n + length (file_handlers filepath lg))%nat.
Proof.
  intros Hknown Hopen. revert lg Hknown.
  induction n as [|n IH]; intros lg Hknown; simpl.
  - by exists lg.
  - pose proof (get_train_info_logger_open can_open filepath show_in_terminal
                  lg Hknown Hopen) as Hcall.
    pose proof (get_train_info_logger_known _ _ _ _ _ Hknown Hcall) as Hknown1.
    rewrite Hcall.
    destruct (IH _ Hknown1) as (lg' & Hrest & Hcount).
    exists lg'. split; [done|]. rewrite Hcount.
    unfold file_handlers. cbn [lg_handlers].
    rewrite filter_app, length_app, filter_cons_True by done.
    destruct show_in_terminal.
    + rewrite filter_cons_False by done. simpl. lia.
    + simpl. lia.
Qed.

(** ** The properties above on the stub *)

Lemma run_result {A S : Type} (r : A * S) (a : A) : r.1 = a -> r = (a, r.2).
Proof. destruct r. simpl. by intros ->. Qed.

Lemma train_single_fold_returns_two_witness :
  let dloader : gmap string (DataLoader (list (float * nat))) :=
    <["train" := Stub.feed [(2%float, 4%nat); (3%float, 6%nat)]]>
    (<["val" := Stub.feed [(5%float, 1%nat)]]> ∅) in
  let floss := [13%float; 5%float] in
  let w' := (train_single_fold dloader Stub.world0).2 in
  train_single_fold dloader Stub.world0 = (Ok floss, w') /\
  exists dl_train s_train w1 dl_val s_val,
    dloader !! "train" = Some dl_train /\
    for_each (loader_batches dl_train) (run_batch true) 0%float
      (set_model (model_train (w_model Stub.world0)) Stub.world0)
      = (Ok s_train, w1) /\
    dloader !! "val" = Some dl_val /\
    for_each (loader_batches dl_val) (run_batch false) 0%float
      (set_model (model_eval (w_model w1)) w1) = (Ok s_val, w') /\
    let train_mean :=
      PrimFloat.div s_train (float_of_nat (length (loader_batches dl_train))) in
    let val_mean :=
      PrimFloat.div s_val (float_of_nat (length (loader_batches dl_val))) in
    floss = [train_mean; val_mean] /\
    py_index floss 0 = Ok train_mean /\
    py_index floss 1 = Ok val_mean /\
    py_last floss = Ok val_mean.
Proof.
  intros dloader floss w'.
  assert (Hrun : train_single_fold dloader Stub.world0 = (Ok floss, w'))
    by (apply run_result; vm_compute; reflexivity).
  split; [exact Hrun|].
  exact (@train_single_fold_returns_two Stub.torch Stub.numpy_random
           _ _ _ _ Hrun).
Defined.

Lemma train_single_fold_ok_only_if_witness :
  is_ok (train_single_fold Stub.feeds_4_6 Stub.world0).1 = true /\
  exists dl_train dl_val,
    Stub.feeds_4_6 !! "train" = Some dl_train /\
    Stub.feeds_4_6 !! "val" = Some dl_val /\
    loader_batches dl_train <> [] /\
    loader_batches dl_val <> [].
Proof.
  assert (Hok : is_ok (train_single_fold Stub.feeds_4_6 Stub.world0).1 = true)
    by (vm_compute; reflexivity).
  split; [exact Hok|].
  exact (@train_single_fold_ok_only_if Stub.torch Stub.numpy_random
           Stub.feeds_4_6 Stub.world0 Hok).
Defined.

Lemma train_single_fold_missing_train_witness :
  (∅ : gmap string (DataLoader (list (float * nat)))) !! "train" = None /\
  train_single_fold ∅ Stub.world0 = (Raise (KeyError "train"), Stub.world0).
Proof.
  split; [reflexivity|].
  exact (@train_single_fold_missing_train Stub.torch Stub.numpy_random
           ∅ Stub.world0 eq_refl).
Defined.

Lemma train_single_fold_empty_train_witness :
  let dloader : gmap string (DataLoader (list (float * nat))) :=
    <["train" := Stub.feed []]> (<["val" := Stub.feed [(2%float, 4%nat)]]> ∅) in
  dloader !! "train" = Some (Stub.feed []) /\
  loader_batches (Stub.feed []) = [] /\
  train_single_fold dloader Stub.world0 = (Raise ZeroDivisionError, Stub.world0).
Proof.
  intros dloader. split; [reflexivity|]. split; [reflexivity|].
  exact (@train_single_fold_empty_train Stub.torch Stub.numpy_random
           dloader (Stub.feed []) Stub.world0 eq_refl eq_refl).
Defined.

Lemma train_single_fold_bad_val_witness :
  let dloader : gmap string (DataLoader (list (float * nat))) :=
    <["train" := Stub.feed [(2%float, 4%nat); (3%float, 6%nat)]]> ∅ in
  dloader !! "val" = None /\
  (train_single_fold dloader Stub.world0).1 = Raise (KeyError "val").
Proof.
  intros dloader. split; [reflexivity|].
  destruct (@train_single_fold_bad_val Stub.torch Stub.numpy_random
              dloader (Stub.feed [(2%float, 4%nat); (3%float, 6%nat)])
              Stub.world0 eq_refl)
    as (s & w1 & _ & Hraise).
  - discriminate.
  - intros dlv Hdlv. discriminate Hdlv.
  - exact Hraise.
Defined.

Lemma save_checkpoints_suffixes_apart_witness :
  let w1 :=
    (save_checkpoints_body "." "Net" cross_validate_default_loss 3 1 "best"
       Stub.world0).2 in
  let w2 :=
    (save_checkpoints_body "." "Net" cross_validate_default_loss 3 1 "latest"
       w1).2 in
  (w_saved w2).*1 = ["./Net_latest.ckpt"; "./Net_best.ckpt"] /\
  exists path1 record1 path2 record2,
    w_saved w2 = (path2, record2) :: (path1, record1) :: w_saved Stub.world0 /\
    path1 <> path2.
Proof.
  split; [vm_compute; reflexivity|].
  eapply (@save_checkpoints_suffixes_apart Stub.torch Stub.numpy_random
            "." "Net" cross_validate_default_loss 3 3 1%float 1%float
            "best" "latest" Stub.world0).
  - reflexivity.
  - discriminate.
Defined.

Lemma cross_validate_fold_train_val_complement_witness :
  2 <= 3 <= Z.of_nat (dataset_len (Stub.rows 7)) /\
  exists dloader,
    cross_validate_loaders (Stub.rows 7) 3 1 Stub.world0 = (Ok dloader, Stub.world0) /\
    Forall (fun d =>
              sampler_of "train" d ++ sampler_of "val" d ≡ₚ seq 0 7 /\
              (forall i, i ∈ sampler_of "train" d -> i ∉ sampler_of "val" d))
           dloader.
Proof.
  assert (Hk : 2 <= 3 <= Z.of_nat (dataset_len (Stub.rows 7)))
    by (vm_compute; split; discriminate).
  split; [exact Hk|].
  exact (@cross_validate_fold_train_val_complement Stub.torch Stub.numpy_random
           (Stub.rows 7) 3 1 Stub.world0 Hk).
Defined.

Lemma cross_validate_fold_sizes_witness :
  @shuffle_permutes Stub.numpy_random /\
  2 <= 3 <= Z.of_nat (dataset_len (Stub.rows 7)) /\
  length <$> (sampler_of "val" <$> Stub.loaders 7 3) = [3; 2; 2]%nat /\
  exists dloader,
    cross_validate_loaders (Stub.rows 7) 3 1 Stub.world0 = (Ok dloader, Stub.world0) /\
    Forall (fun d =>
              let v := length (sampler_of "val" d) in
              (v = 2%nat \/ v = 3%nat) /\ (1 <= v)%nat /\
              length (sampler_of "train" d) = (7 - v)%nat)
           dloader.
Proof.
  assert (Hs : @shuffle_permutes Stub.numpy_random).
  { intros g l. simpl. unfold rotate. by rewrite Permutation_app_comm, take_drop. }
  assert (Hk : 2 <= 3 <= Z.of_nat (dataset_len (Stub.rows 7)))
    by (vm_compute; split; discriminate).
  split; [exact Hs|]. split; [exact Hk|].
  split; [vm_compute; reflexivity|].
  exact (@cross_validate_fold_sizes Stub.torch Stub.numpy_random
           (Stub.rows 7) 3 1 Stub.world0 Hs Hk).
Defined.

Lemma cross_validate_bad_fold_count_witness :
  exists msg,
    cross_validate (Stub.rows 4) (Stub.single_fold_fixed 1) 5 1 3 0 "." None
      None float_inf Stub.world0
    = (Raise (ValueError msg), Stub.world0).
Proof.
  apply (@cross_validate_bad_fold_count Stub.torch Stub.numpy_random).
  right. vm_compute. reflexivity.
Defined.

Lemma cross_validate_no_epochs_witness :
  cross_validate (Stub.rows 4) (Stub.single_fold_fixed 1) 2 1 0 0 "." None
    None float_inf Stub.world0
  = (Ok tt, Stub.world0).
Proof.
  apply (@cross_validate_no_epochs Stub.torch Stub.numpy_random).
  - discriminate.
  - vm_compute. split; discriminate.
  - discriminate.
Defined.

Lemma cross_validate_epoch_missing_std_witness :
  let w :=
    set_heap (<[4%positive := <["mean" := [7%float]]> ∅]> module_heap) Stub.world0 in
  let r :=
    cross_validate_epoch (Stub.single_fold_fixed 0.1) (Stub.loaders 10 10) 10
      "." "Net" 4%positive 0 float_inf w in
  r.1 = Raise (KeyError "std") /\
  history 4%positive "mean" r.2 = Some [7%float; 0.1%float] /\
  history 4%positive "std" r.2 = None /\
  w_saved r.2 = [].
Proof.
  intros w r.
  assert (Hf : cross_validate_folds (Stub.single_fold_fixed 0.1)
                 (Stub.loaders 10 10) 10 w
               = (Ok (replicate 10 0.1%float), w))
    by (vm_compute; reflexivity).
  exact (@cross_validate_epoch_missing_std Stub.torch Stub.numpy_random
           (Stub.single_fold_fixed 0.1) (Stub.loaders 10 10) 10 "." "Net"
           4%positive 0 float_inf w (replicate 10 0.1%float) w
           (<["mean" := [7%float]]> ∅) [7%float] Hf eq_refl eq_refl eq_refl).
Defined.

Lemma cross_validate_latest_epochs_witness :
  let run :=
    cross_validate (Stub.rows 4) (Stub.single_fold_fixed 1) 2 1 2 5 "." None
      None float_inf Stub.world0 in
  run.1 = Ok tt /\
  saved_epochs "./Net_latest.ckpt" run.2 = [6; 5].
Proof.
  intros run.
  assert (Hok : run.1 = Ok tt) by (vm_compute; reflexivity).
  split; [exact Hok|].
  apply (@cross_validate_latest_epochs Stub.torch Stub.numpy_random
           (Stub.rows 4) (Stub.single_fold_fixed 1) 2 1 2 5 "." None None
           float_inf Stub.world0 run.2).
  - intros dl w0. reflexivity.
  - apply run_result. exact Hok.
Defined.

Lemma cross_validate_history_grows_witness :
  let run :=
    cross_validate (Stub.rows 4) (Stub.single_fold_fixed 1) 2 1 2 5 "." None
      None float_inf Stub.world0 in
  run.1 = Ok tt /\
  history cross_validate_default_loss "mean" Stub.world0 = Some [] /\
  history cross_validate_default_loss "mean" run.2 = Some [1%float; 1%float] /\
  exists means stds,
    length means = 2%nat /\ length stds = 2%nat /\
    history cross_validate_default_loss "mean" run.2 = Some ([] ++ means) /\
    history cross_validate_default_loss "std" run.2 = Some ([] ++ stds).
Proof.
  intros run.
  assert (Hok : run.1 = Ok tt) by (vm_compute; reflexivity).
  split; [exact Hok|]. split; [reflexivity|].
  split; [vm_compute; reflexivity|].
  apply (@cross_validate_history_grows Stub.torch Stub.numpy_random
           (Stub.rows 4) (Stub.single_fold_fixed 1) 2 1 2 5 "." None None
           float_inf Stub.world0 run.2 [] []).
  - intros dl w0. reflexivity.
  - apply run_result. exact Hok.
  - reflexivity.
  - reflexivity.
Defined.

Lemma cross_validate_last_checkpoint_is_final_state_witness :
  let run :=
    cross_validate (Stub.rows 4) (Stub.single_fold_fixed 1) 2 1 2 5 "." None
      None float_inf Stub.world0 in
  run.1 = Ok tt /\
  exists h' best',
    w_heap run.2 !! cross_validate_default_loss = Some h' /\
    head (w_saved run.2)
    = Some ("./Net_latest.ckpt", epoch_record run.2 h' 6 best').
Proof.
  intros run.
  assert (Hok : run.1 = Ok tt) by (vm_compute; reflexivity).
  split; [exact Hok|].
  apply (@cross_validate_last_checkpoint_is_final_state Stub.torch
           Stub.numpy_random (Stub.rows 4) (Stub.single_fold_fixed 1) 2 1 2 5
           "." None None float_inf Stub.world0 run.2).
  - reflexivity.
  - apply run_result. exact Hok.
Defined.

Lemma cross_validate_epoch_best_equals_latest_witness :
  let w' :=
    (cross_validate_epoch (Stub.single_fold_fixed 0.7) (Stub.loaders 8 8) 8 "."
       "Net" cross_validate_default_loss 0 0.7000000000000001 Stub.world0).2 in
  PrimFloat.ltb (np_mean (replicate 8 0.7%float)) 0.7000000000000001 = true /\
  exists record h',
    w_saved w' = [("./Net_latest.ckpt", record); ("./Net_best.ckpt", record)] /\
    field "best_loss" record = Some (SFloat 0.7%float) /\
    field "epoch" record = Some (SInt 0) /\
    field "loss" record = Some (SHistory h') /\
    w_heap w' !! cross_validate_default_loss = Some h' /\
    h' !! "mean" = Some [0.7%float] /\
    h' !! "std" = Some [0%float].
Proof.
  intros w'. split; [reflexivity|].
  assert (Hf : cross_validate_folds (Stub.single_fold_fixed 0.7) (Stub.loaders 8 8)
                 8 Stub.world0 = (Ok (replicate 8 0.7%float), Stub.world0))
    by (vm_compute; reflexivity).
  exact (@cross_validate_epoch_best_equals_latest Stub.torch Stub.numpy_random
           (Stub.single_fold_fixed 0.7) (Stub.loaders 8 8) 8 "." "Net"
           cross_validate_default_loss 0 0.7000000000000001%float Stub.world0
           (replicate 8 0.7%float) Stub.world0
           (<["mean" := []]> (<["std" := []]> ∅)) [] []
           Hf eq_refl eq_refl eq_refl eq_refl).
Defined.

Lemma cross_validate_epoch_equal_mean_no_best_witness :
  let r :=
    cross_validate_epoch (Stub.single_fold_fixed 0.1) (Stub.loaders 10 10) 10
      "." "Net" cross_validate_default_loss 0 0.1 Stub.world0 in
  exists record,
    r.1 = Ok 0.1%float /\
    w_saved r.2 = [("./Net_latest.ckpt", record)] /\
    field "best_loss" record = Some (SFloat 0.1%float).
Proof.
  assert (Hf : cross_validate_folds (Stub.single_fold_fixed 0.1)
                 (Stub.loaders 10 10) 10 Stub.world0
               = (Ok (replicate 10 0.1%float), Stub.world0))
    by (vm_compute; reflexivity).
  exact (@cross_validate_epoch_equal_mean_no_best Stub.torch Stub.numpy_random
           (Stub.single_fold_fixed 0.1) (Stub.loaders 10 10) 10 "." "Net"
           cross_validate_default_loss 0 Stub.world0
           (replicate 10 0.1%float) Stub.world0
           (<["mean" := []]> (<["std" := []]> ∅)) [] []
           Hf eq_refl eq_refl eq_refl).
Defined.

Lemma cross_validate_epoch_best_never_rises_witness :
  let r :=
    cross_validate_epoch (Stub.single_fold_fixed 3) (Stub.loaders 4 2) 2 "."
      "Net" cross_validate_default_loss 0 2 Stub.world0 in
  r.1 = Ok 2%float /\
  PrimFloat.ltb 2 2 = false /\
  exists record,
    head (w_saved r.2) = Some ("./Net_latest.ckpt", record) /\
    field "best_loss" record = Some (SFloat 2%float).
Proof.
  intros r.
  assert (Hok : r.1 = Ok 2%float) by (vm_compute; reflexivity).
  split; [exact Hok|].
  exact (@cross_validate_epoch_best_never_rises Stub.torch Stub.numpy_random
           (Stub.single_fold_fixed 3) (Stub.loaders 4 2) 2 "." "Net"
           cross_validate_default_loss 0 2%float Stub.world0 2%float r.2
           (run_result r _ Hok)).
Defined.

Lemma cross_validate_epoch_nan_best_witness :
  let r :=
    cross_validate_epoch (Stub.single_fold_fixed 1) (Stub.loaders 4 2) 2 "."
      "Net" cross_validate_default_loss 0 PrimFloat.nan Stub.world0 in
  exists record,
    r.1 = Ok PrimFloat.nan /\
    w_saved r.2 = [("./Net_latest.ckpt", record)] /\
    field "best_loss" record = Some (SFloat PrimFloat.nan).
Proof.
  assert (Hf : cross_validate_folds (Stub.single_fold_fixed 1) (Stub.loaders 4 2)
                 2 Stub.world0 = (Ok [1%float; 1%float], Stub.world0))
    by (vm_compute; reflexivity).
  exact (@cross_validate_epoch_nan_best Stub.torch Stub.numpy_random
           (Stub.single_fold_fixed 1) (Stub.loaders 4 2) 2 "." "Net"
           cross_validate_default_loss 0 Stub.world0
           [1%float; 1%float] Stub.world0
           (<["mean" := []]> (<["std" := []]> ∅)) [] []
           Hf eq_refl eq_refl eq_refl).
Defined.

Lemma train_model_runs_one_epoch_witness :
  exists w',
    train_model Stub.feeds_4_6 "." None 3 0 None float_inf Stub.world0
    = (Raise Stub.logger_twice, w') /\
    history train_model_default_loss "train" w' = Some ([] ++ [13%float]) /\
    history train_model_default_loss "val" w' = Some ([] ++ [13%float]) /\
    w_saved w' = [] /\
    w_model w' = 2%nat /\
    w_optim w' = 2%nat.
Proof.
  assert (Hrun : train_single_fold Stub.feeds_4_6 Stub.world0
            = (Ok [13%float; 13%float],
               (train_single_fold Stub.feeds_4_6 Stub.world0).2))
    by (apply run_result; vm_compute; reflexivity).
  exact (@train_model_runs_one_epoch Stub.torch Stub.numpy_random
           Stub.feeds_4_6 "." None 3 0 None float_inf Stub.world0
           13%float 13%float _ [] [] eq_refl Hrun eq_refl eq_refl).
Defined.

Lemma get_train_info_logger_effect_witness :
  let lg' := mkRootLogger
    [mkHandler 0 (FileHandler "train.log") (Some train_info_format);
     mkHandler 1 StreamHandler (Some train_info_format)] INFO 2 in
  handlers_known root_logger0 /\
  get_train_info_logger (fun _ => true) "train.log" true root_logger0 = Some lg' /\
  lg_level root_logger0 = WARNING /\
  lg_level lg' = INFO /\
  handlers_known lg'.
Proof.
  intros lg'.
  assert (Hk : handlers_known root_logger0) by constructor.
  assert (Hcall : get_train_info_logger (fun _ => true) "train.log" true
                    root_logger0 = Some lg') by reflexivity.
  split; [exact Hk|]. split; [exact Hcall|]. split; [reflexivity|].
  destruct (get_train_info_logger_effect (fun _ => true) "train.log" true
              root_logger0 lg' Hk Hcall) as (_ & _ & Hlevel & Hknown).
  split; [exact Hlevel | exact Hknown].
Defined.

Lemma get_train_info_logger_handlers_add_up_witness :
  handlers_known root_logger0 /\
  exists lg',
    get_train_info_logger_times 2 (fun _ => true) "train.log" false root_logger0
    = Some lg' /\
    length (file_handlers "train.log" lg') = (2 + 0)%nat.
Proof.
  assert (Hk : handlers_known root_logger0) by constructor.
  split; [exact Hk|].
  exact (get_train_info_logger_handlers_add_up 2 (fun _ => true) "train.log"
           false root_logger0 Hk eq_refl).
Defined.

Lemma cross_validate_resume_witness :
  let first :=
    cross_validate (Stub.rows 4) Stub.single_fold_counting 2 1 1 5 "." None
      None float_inf Stub.world0 in
  first.1 = Ok tt /\
  history cross_validate_default_loss "mean" first.2 = Some [1.5%float] /\
  cross_validate (Stub.rows 4) Stub.single_fold_counting 2 1 1 6 "." None
    None 1.5 first.2
  = cross_validate (Stub.rows 4) Stub.single_fold_counting 2 1 2 5 "." None
      None float_inf Stub.world0.
Proof.
  intros first.
  assert (Hok : first.1 = Ok tt) by (vm_compute; reflexivity).
  split; [exact Hok|]. split; [vm_compute; reflexivity|].
  eapply (@cross_validate_resume Stub.torch Stub.numpy_random
            (Stub.rows 4) Stub.single_fold_counting 2 1 1 1 5 "." None None
            float_inf Stub.world0 first.2 _ _ 1.5%float).
  - reflexivity.
  - discriminate.
  - apply run_result. exact Hok.
  - reflexivity.
  - vm_compute. reflexivity.
  - reflexivity.
Defined.

Lemma cross_validate_epoch_fold_failure_witness :
  let dloader : list (gmap string (DataLoader (list (float * nat)))) :=
    [Stub.feeds_4_6; ∅] in
  let r :=
    cross_validate_epoch train_single_fold dloader 2 "." "Net"
      cross_validate_default_loss 0 float_inf Stub.world0 in
  r.1 = Raise (KeyError "train") /\
  w_heap r.2 = w_heap Stub.world0 /\
  w_saved r.2 = [].
Proof.
  intros dloader r.
  assert (Hf : (cross_validate_folds train_single_fold dloader 2 Stub.world0).1
               = Raise (KeyError "train")) by (vm_compute; reflexivity).
  destruct (@cross_validate_epoch_fold_failure Stub.torch Stub.numpy_random
              (@train_single_fold Stub.torch Stub.numpy_random) dloader 2 "."
              "Net" cross_validate_default_loss
              0 float_inf Stub.world0 (KeyError "train")
              (@cross_validate_folds Stub.torch Stub.numpy_random
                 train_single_fold dloader 2 Stub.world0).2)
    as (Hr & Hh & Hs).
  - intros dl w0.
    apply (@train_single_fold_keeps Stub.torch Stub.numpy_random _ w_heap);
      [done | apply run_batch_heap].
  - intros dl w0.
    apply (@train_single_fold_keeps Stub.torch Stub.numpy_random _ w_saved);
      [done | apply run_batch_saved].
  - apply run_result. exact Hf.
  - subst r. rewrite Hr. simpl. split; [done|]. split; [exact Hh | exact Hs].
Defined.
